(** * Prosodic feature extraction (scripts/voice_emotion_analysis.py)

    A shallow embedding of the script: IEEE-754 floats as [spec_float], numpy
    reductions as list functions, Python exceptions as an error monad, the
    signal-processing library as an interface record, the returned dictionary
    as an insertion-ordered association list, and the command line entry point
    as a function from [sys.argv] to what the process writes and its status. *)

From Stdlib Require Import ZArith List Bool String Ascii Lia DecimalString.
From Stdlib Require Import Floats.SpecFloat.
Import ListNotations.
Open Scope Z_scope.
Open Scope string_scope.

(** ** Floating point *)

Module Fl.

(** A format is the pair (precision, emax): numpy's float32 and float64. *)
Record format := Format { prec : Z; emax : Z }.

Definition binary32 : format := Format 24 128.
Definition binary64 : format := Format 53 1024.

Definition add (t : format) := SFadd (prec t) (emax t).
Definition sub (t : format) := SFsub (prec t) (emax t).
Definition mul (t : format) := SFmul (prec t) (emax t).
Definition div (t : format) := SFdiv (prec t) (emax t).
Definition sqrt (t : format) := SFsqrt (prec t) (emax t).

(** The float nearest to an integer (exact for the small constants of the
    script). *)
Definition of_Z (t : format) (n : Z) : spec_float :=
  binary_normalize (prec t) (emax t) n 0 false.

(** Re-normalisation of a value in another format: [float(x)] on a numpy
    float32 scalar widens it to a Python float without changing its value. *)
Definition cast (t : format) (x : spec_float) : spec_float :=
  match x with
  | S754_finite s m e =>
      binary_normalize (prec t) (emax t) (if s then Zneg m else Zpos m) e s
  | _ => x
  end.

Definition is_nan (x : spec_float) : bool :=
  match x with S754_nan => true | _ => false end.

(** [math.isfinite]: neither NaN nor an infinity. *)
Definition is_finite (x : spec_float) : bool :=
  match x with
  | S754_zero _ | S754_finite _ _ _ => true
  | S754_infinity _ | S754_nan => false
  end.

Definition leb (x y : spec_float) : bool := SFleb x y.
Definition ltb (x y : spec_float) : bool := SFltb x y.

(** Python float literals of the script. *)
Definition lit (n : Z) : spec_float := of_Z binary64 n.
(** [0.01]: the double nearest to 1/100, which correctly rounded division of
    the exact 1 and 100 yields. *)
Definition lit_0_01 : spec_float := div binary64 (lit 1) (lit 100).

End Fl.

Definition float : Set := spec_float.

(** ** Exceptions and the error monad *)

(** A raised Python exception: its class name and [str(e)]. *)
Record exn := Exn { exn_class : string; exn_str : string }.

Inductive result (A : Type) : Type :=
| Ok (a : A)
| Raise (e : exn).
Arguments Ok {A} a.
Arguments Raise {A} e.

Definition bind {A B : Type} (c : result A) (k : A -> result B) : result B :=
  match c with
  | Ok a => k a
  | Raise e => Raise e
  end.

Notation "x <- c ;; k" := (bind c (fun x => k))
  (at level 61, c at next level, right associativity).
Notation "' p <- c ;; k" := (bind c (fun x => let p := x in k))
  (at level 61, p pattern, c at next level, right associativity).

(** Decimal rendering of an integer, as [str(n)] gives it. *)
Definition str_of_nat (n : nat) : string :=
  DecimalString.NilZero.string_of_uint (Nat.to_uint n).

(** ** numpy *)

Module np.

Section Reductions.
(** The dtype of the array: the result of a reduction has the same one. *)
Variable t : Fl.format.

(** The eight running sums of numpy's unrolled summation loop. *)
Record lanes := Lanes {
  r0 : float; r1 : float; r2 : float; r3 : float;
  r4 : float; r5 : float; r6 : float; r7 : float
}.

(** Fewer than eight elements: added one by one to -0.0, which leaves the
    first element as it is. *)
Definition sequential (a : list float) : float :=
  fold_left (Fl.add t) a (S754_zero true).

(** Each full group of eight further elements is added to the running sums
    lane by lane; what is left, fewer than eight elements, is returned. *)
Fixpoint accumulate (r : lanes) (a : list float) : lanes * list float :=
  match a with
  | a0 :: a1 :: a2 :: a3 :: a4 :: a5 :: a6 :: a7 :: rest =>
      accumulate
        (Lanes (Fl.add t (r0 r) a0) (Fl.add t (r1 r) a1)
               (Fl.add t (r2 r) a2) (Fl.add t (r3 r) a3)
               (Fl.add t (r4 r) a4) (Fl.add t (r5 r) a5)
               (Fl.add t (r6 r) a6) (Fl.add t (r7 r) a7))
        rest
  | _ => (r, a)
  end.

(** A block of 8 to 128 elements: the first eight start the running sums,
    which are added in pairs at the end, and the elements left over are added
    one by one. *)
Definition block (a : list float) : float :=
  match a with
  | a0 :: a1 :: a2 :: a3 :: a4 :: a5 :: a6 :: a7 :: rest =>
      let (r, left) := accumulate (Lanes a0 a1 a2 a3 a4 a5 a6 a7) rest in
      fold_left (Fl.add t) left
        (Fl.add t
           (Fl.add t (Fl.add t (r0 r) (r1 r)) (Fl.add t (r2 r) (r3 r)))
           (Fl.add t (Fl.add t (r4 r) (r5 r)) (Fl.add t (r6 r) (r7 r))))
  | _ => sequential a
  end.

(** numpy's pairwise summation: an array of more than 128 elements is split
    in two, the first part being half of it rounded down to a multiple of
    eight, and the sums of the parts are added.  The fuel bounds the depth of
    the splitting; the length of the array is more than enough. *)
Fixpoint pairwise (fuel : nat) (a : list float) : float :=
  let n := List.length a in
  if Nat.ltb n 8 then sequential a
  else if Nat.leb n 128 then block a
  else
    match fuel with
    | O => block a
    | S fuel' =>
        let n2 := (n / 2 - (n / 2) mod 8)%nat in
        Fl.add t (pairwise fuel' (firstn n2 a)) (pairwise fuel' (skipn n2 a))
    end.

(** [np.add.reduce] on a contiguous array: 0.0 for an empty array; otherwise
    the pairwise sum, added to the initial value -0.0. *)
Definition sum (a : list float) : float :=
  match a with
  | [] => Fl.of_Z t 0
  | _ :: _ => Fl.add t (S754_zero true) (pairwise (List.length a) a)
  end.

Definition count (a : list float) : float := Fl.of_Z t (Z.of_nat (List.length a)).

(** [np.mean]: the sum over the number of elements; 0.0/0 = NaN (with a
    RuntimeWarning, not an exception) for an empty array. *)
Definition mean (a : list float) : float := Fl.div t (sum a) (count a).

(** [np.var] (ddof = 0): the mean of the squared deviations from the mean. *)
Definition var (a : list float) : float :=
  let arrmean := mean a in
  let x := map (fun v => Fl.sub t v arrmean) a in
  let x := map (fun v => Fl.mul t v v) x in
  Fl.div t (sum x) (count a).

(** [np.std]: the square root of [np.var]. *)
Definition std (a : list float) : float := Fl.sqrt t (var a).

(** [np.maximum] and [np.minimum] propagate NaN. *)
Definition maximum (x y : float) : float :=
  if Fl.is_nan x then x else if Fl.is_nan y then y
  else if Fl.ltb x y then y else x.
Definition minimum (x y : float) : float :=
  if Fl.is_nan x then x else if Fl.is_nan y then y
  else if Fl.ltb y x then y else x.

Definition zero_size (op : string) : exn :=
  Exn "ValueError"
    ("zero-size array to reduction operation " ++ op ++ " which has no identity").

Definition max (a : list float) : result float :=
  match a with
  | [] => Raise (zero_size "maximum")
  | x :: xs => Ok (fold_left maximum xs x)
  end.
Definition min (a : list float) : result float :=
  match a with
  | [] => Raise (zero_size "minimum")
  | x :: xs => Ok (fold_left minimum xs x)
  end.

(** [np.ptp]: maximum minus minimum; raises ValueError on an empty array. *)
Definition ptp (a : list float) : result float :=
  hi <- max a ;;
  lo <- min a ;;
  Ok (Fl.sub t hi lo).

(** [np.diff]: [a[1:] - a[:-1]]. *)
Fixpoint diff (a : list float) : list float :=
  match a with
  | x :: (y :: _) as tl => Fl.sub t y x :: diff tl
  | _ => []
  end.

(** [a ** 2]: numpy squares each element. *)
Definition square (a : list float) : list float :=
  map (fun v => Fl.mul t v v) a.
End Reductions.

(** int64 arithmetic wraps around. *)
Definition wrap_int64 (n : Z) : Z := (n + 2 ^ 63) mod 2 ^ 64 - 2 ^ 63.

(** [np.diff] on an int64 array. *)
Fixpoint diff_int (a : list Z) : list Z :=
  match a with
  | x :: (y :: _) as tl => wrap_int64 (y - x) :: diff_int tl
  | _ => []
  end.

(** Reductions of an integer array are carried out in float64.  (numpy
    converts the elements as it adds them, 8192 at a time; for the mean of
    beat intervals, whose partial sums are integers that float64 holds
    exactly, the order of the additions makes no difference.) *)
Definition as_float64 (a : list Z) : list float := map (Fl.of_Z Fl.binary64) a.

(** [a[mask]] with a boolean mask: the elements whose flag is set; IndexError
    when the mask and the array differ in length. *)
Fixpoint select (a : list float) (mask : list bool) : list float :=
  match a, mask with
  | x :: xs, b :: bs => if b then x :: select xs bs else select xs bs
  | _, _ => []
  end.

Definition mask_index (a : list float) (mask : list bool) : result (list float) :=
  if Nat.eqb (List.length a) (List.length mask) then Ok (select a mask)
  else Raise (Exn "IndexError"
    ("boolean index did not match indexed array along axis 0; size of axis is "
     ++ str_of_nat (List.length a) ++ " but size of corresponding boolean axis is "
     ++ str_of_nat (List.length mask))).

(** [a[0]] on a two-dimensional array: its first row. *)
Definition row0 (a : list (list float)) : result (list float) :=
  match a with
  | r :: _ => Ok r
  | [] => Raise (Exn "IndexError" "index 0 is out of bounds for axis 0 with size 0")
  end.

(** [a[:n]]. *)
Definition slice_to {A : Type} (n : nat) (a : list A) : list A := firstn n a.

(** A float64 number as a library hands it over: a Python float or numpy
    scalar, or a one-dimensional array. *)
Inductive value :=
| Scalar (x : float)
| Array (a : list float).

(** [v * c], element by element on an array. *)
Definition times (v : value) (c : float) : value :=
  match v with
  | Scalar x => Scalar (Fl.mul Fl.binary64 x c)
  | Array a => Array (map (fun x => Fl.mul Fl.binary64 x c) a)
  end.

(** The releases of NumPy that differ in what [float] makes of an array:
    1.25 to 2.3, and 2.4 and later. *)
Inductive version := V1_25 | V2_4.

(** [float(v)].  NumPy 1.25 to 2.3 converts an array of one element (with a
    DeprecationWarning) and raises TypeError on any other array; NumPy 2.4
    raises TypeError on every array that has a dimension. *)
Definition to_float (numpy : version) (v : value) : result float :=
  match v with
  | Scalar x => Ok x
  | Array a =>
      match numpy, a with
      | V1_25, [x] => Ok x
      | V1_25, _ =>
          Raise (Exn "TypeError" "only length-1 arrays can be converted to Python scalars")
      | V2_4, _ =>
          Raise (Exn "TypeError"
                   "only 0-dimensional arrays can be converted to Python scalars")
      end
  end.

End np.

(** ** Python values *)

(** What the script builds and prints: floats, lists, and dictionaries with
    string keys, which keep the order their entries were written in. *)
#[warnings="-register-all"]
Inductive pyval : Type :=
| PyFloat (x : float)
| PyList (l : list pyval)
| PyDict (d : list (string * pyval)).

(** Induction on a value, with the property of the elements of a list and of
    the values of a dictionary at hand. *)
Definition pyval_induction (P : pyval -> Prop)
    (Hfloat : forall x, P (PyFloat x))
    (Hlist : forall l, Forall P l -> P (PyList l))
    (Hdict : forall d, Forall (fun kv => P (snd kv)) d -> P (PyDict d))
  : forall v, P v :=
  fix go (v : pyval) : P v :=
    match v with
    | PyFloat x => Hfloat x
    | PyList l =>
        Hlist l ((fix all (l : list pyval) : Forall P l :=
                    match l with
                    | [] => Forall_nil P
                    | x :: xs => Forall_cons x (go x) (all xs)
                    end) l)
    | PyDict d =>
        Hdict d ((fix all (d : list (string * pyval)) : Forall (fun kv => P (snd kv)) d :=
                    match d with
                    | [] => Forall_nil _
                    | kv :: rest => Forall_cons kv (go (snd kv)) (all rest)
                    end) d)
    end.

(** [d.keys()], in insertion order; nothing for a value that is no dictionary. *)
Definition keys (v : pyval) : list string :=
  match v with
  | PyDict d => map fst d
  | _ => []
  end.

Fixpoint assoc (k : string) (d : list (string * pyval)) : option pyval :=
  match d with
  | [] => None
  | (k', v) :: rest => if String.eqb k k' then Some v else assoc k rest
  end.

(** [v[k]]. *)
Definition get (k : string) (v : pyval) : option pyval :=
  match v with
  | PyDict d => assoc k d
  | _ => None
  end.

(** [v[section][field]]. *)
Definition field (section name : string) (v : pyval) : option pyval :=
  match get section v with
  | Some s => get name s
  | None => None
  end.

(** [array.tolist()] of a float64 array, and of a float32 array, whose
    elements widen to Python floats. *)
Definition tolist (a : list float) : pyval := PyList (map PyFloat a).
Definition tolist32 (a : list float) : pyval :=
  PyList (map (fun v => PyFloat (Fl.cast Fl.binary64 v)) a).

(** [bool(v)] for what [extract_prosodic_features] returns: [None] and empty
    containers are false. *)
Definition truthy (v : option pyval) : bool :=
  match v with
  | None => false
  | Some (PyDict []) | Some (PyList []) => false
  | Some (PyFloat x) => negb (SFeqb x (S754_zero false))
  | Some _ => true
  end.

(** ** The signal-processing library *)

(** The installed libraries as the script meets them: the calls it makes
    into librosa, each of which may raise, the release of NumPy, and what the
    libraries write to the error stream of their own accord.  Samples and the
    frame-wise RMS are float32 (librosa decodes to float32), pitch and tempo
    are float64, beat positions are int64 frame indices. *)
Record Librosa := {
  (** [librosa.load(path, sr=None)]: the samples and the native sample rate. *)
  load : string -> result (list float * Z);
  (** [librosa.pyin(y, fmin, fmax)]: per frame, the pitch estimate, whether
      the frame is voiced, and the probability that it is. *)
  pyin : list float -> Z -> Z -> result (list float * list bool * list float);
  (** [librosa.feature.rms(y=y)], of shape (1, frames). *)
  feature_rms : list float -> result (list (list float));
  feature_spectral_centroid : list float -> Z -> result (list (list float));
  feature_spectral_rolloff : list float -> Z -> result (list (list float));
  (** [librosa.beat.beat_track(y=y, sr=sr)]: the tempo and the beat frames.
      The tempo is a Python float in older releases of librosa and wherever
      no onset is found; otherwise librosa 0.11 returns an array of one
      element. *)
  beat_track : list float -> Z -> result (np.value * list Z);
  (** [librosa.stft(y)]: a complex matrix, as pairs. *)
  stft : list float -> result (list (list (float * float)));
  fft_frequencies : Z -> result (list float);
  (** The installed NumPy. *)
  numpy : np.version;
  (** What numpy and librosa print to the error stream through Python's
      [warnings] module while the file of the given path is processed: a
      RuntimeWarning for the mean of an empty array or for 0.0/0.0, a
      UserWarning of the decoder, and the like. *)
  warnings : string -> string
}.

(** ** extract_prosodic_features *)

Definition b32 := Fl.binary32.
Definition b64 := Fl.binary64.

Definition formants : pyval :=
  PyList
    [ PyDict [("frequency", PyFloat (Fl.lit 700)); ("bandwidth", PyFloat (Fl.lit 50))];
      PyDict [("frequency", PyFloat (Fl.lit 1200)); ("bandwidth", PyFloat (Fl.lit 70))];
      PyDict [("frequency", PyFloat (Fl.lit 2500)); ("bandwidth", PyFloat (Fl.lit 100))] ].

(** The [pitch] entry of the returned dictionary: statistics of the voiced
    frames, or the fallback constants when there is none. *)
Definition pitch_section (f0_clean : list float) : result pyval :=
  let voiced := Nat.ltb 0 (List.length f0_clean) in
  f0_range <- (if voiced then np.ptp b64 f0_clean else Ok (Fl.lit 50)) ;;
  Ok (PyDict
    [ ("mean_f0", PyFloat (if voiced then np.mean b64 f0_clean else Fl.lit 150));
      ("f0_variance", PyFloat (if voiced then np.var b64 f0_clean else Fl.lit 100));
      ("f0_range", PyFloat f0_range);
      ("pitch_contour", if voiced then tolist (np.slice_to 100 f0_clean) else PyList []) ]).

(** The [energy] entry; [np.ptp] raises when there is no frame at all. *)
Definition energy_section (energy : list float) : result pyval :=
  dynamic_range <- np.ptp b32 energy ;;
  Ok (PyDict
    [ ("mean_energy", PyFloat (Fl.cast b64 (np.mean b32 energy)));
      ("energy_variance", PyFloat (Fl.cast b64 (np.var b32 energy)));
      ("dynamic_range", PyFloat (Fl.cast b64 dynamic_range));
      ("energy_contour", tolist32 (np.slice_to 100 energy)) ]).

(** The [timing] entry, [speaking_rate] being the value of
    [float(tempo * 2)]. *)
Definition timing_section (speaking_rate : float) (beats : list Z) : pyval :=
  let intervals := np.as_float64 (np.diff_int beats) in
  PyDict
    [ ("speaking_rate", PyFloat speaking_rate);
      ("pause_patterns", PyList []);
      ("rhythm_score", PyFloat (Fl.div b64 (np.std b64 intervals) (np.mean b64 intervals))) ].

(** The [voice_quality] entry. *)
Definition voice_quality_section (f0_clean rms : list float) : pyval :=
  PyDict
    [ ("jitter",
        PyFloat (if Nat.ltb 1 (List.length f0_clean)
                 then Fl.div b64 (np.std b64 (np.diff b64 f0_clean)) (np.mean b64 f0_clean)
                 else Fl.lit_0_01));
      ("shimmer",
        PyFloat (Fl.cast b64 (Fl.div b32 (np.std b32 (np.diff b32 rms)) (np.mean b32 rms))));
      ("hnr", PyFloat (Fl.lit 15));
      ("formants", formants) ].

(** The body of the [try] block: the library calls in the order of the
    script, then the dictionary, whose entries are evaluated in order:
    [float(tempo * 2)], which raises when [float] does not accept the tempo
    of the beat tracker, comes after the pitch and energy entries, and nothing
    after it can raise.  The spectral features, the spectrum and the
    frequencies are computed and not used; [magnitude = np.abs(stft)], which
    cannot raise, is left out. *)
Definition features (L : Librosa) (audio_path : string) : result pyval :=
  '(y, sr) <- load L audio_path ;;
  '(f0, voiced_flag, voiced_probs) <- pyin L y 50 400 ;;
  f0_clean <- np.mask_index f0 voiced_flag ;;
  rms2 <- feature_rms L y ;;
  rms <- np.row0 rms2 ;;
  let energy := np.square b32 rms in
  centroid2 <- feature_spectral_centroid L y sr ;;
  spectral_centroids <- np.row0 centroid2 ;;
  rolloff2 <- feature_spectral_rolloff L y sr ;;
  spectral_rolloff <- np.row0 rolloff2 ;;
  '(tempo, beats) <- beat_track L y sr ;;
  spectrum <- stft L y ;;
  freqs <- fft_frequencies L sr ;;
  pitch <- pitch_section f0_clean ;;
  energy_d <- energy_section energy ;;
  speaking_rate <- np.to_float (numpy L) (np.times tempo (Fl.lit 2)) ;;
  Ok (PyDict
    [ ("pitch", pitch);
      ("energy", energy_d);
      ("timing", timing_section speaking_rate beats);
      ("voice_quality", voice_quality_section f0_clean rms) ]).

Definition nl : string := String (ascii_of_nat 10) EmptyString.

(** [print(s, file=stream)] appends the text and a newline to the stream. *)
Definition print (s : string) (stream : string) : string := stream ++ s ++ nl.

(** What the function returns, and what its own [print] has written to the
    error stream: any exception of the body is caught, reported and turned
    into [None].  The warnings of the libraries, which are no output of the
    function's code, are added to the stream in [main]. *)
Definition extract_prosodic_features (L : Librosa) (audio_path : string)
  : option pyval * string :=
  match features L audio_path with
  | Ok d => (Some d, "")
  | Raise e => (None, print ("Error processing audio: " ++ exn_str e) "")
  end.

(** ** json.dumps *)

Module json.

Definition quote : ascii := ascii_of_nat 34.
Definition backslash : ascii := ascii_of_nat 92.

Definition hex_digit (n : nat) : ascii :=
  nth n (list_ascii_of_string "0123456789abcdef") "0"%char.

(** The escape of one character in a string literal ([ensure_ascii]): the
    short escapes, [\u00xx] for what is not printable ASCII, and the character
    itself otherwise.  A character of a Rocq string is the code point below
    256 of that number. *)
Definition escape_char (c : ascii) : string :=
  let n := nat_of_ascii c in
  if Nat.eqb n 34 then String backslash (String quote "")
  else if Nat.eqb n 92 then String backslash (String backslash "")
  else if Nat.eqb n 10 then String backslash "n"
  else if Nat.eqb n 13 then String backslash "r"
  else if Nat.eqb n 9 then String backslash "t"
  else if Nat.eqb n 8 then String backslash "b"
  else if Nat.eqb n 12 then String backslash "f"
  else if Nat.ltb n 32 || Nat.ltb 126 n
  then String backslash
         (String "u" (String "0" (String "0"
           (String (hex_digit (n / 16)) (String (hex_digit (n mod 16)) "")))))
  else String c "".

Fixpoint escape (s : string) : string :=
  match s with
  | EmptyString => ""
  | String c r => escape_char c ++ escape r
  end.

(** [encode_basestring_ascii]: the quoted, escaped string. *)
Definition encode_str (s : string) : string :=
  String quote (escape s ++ String quote "").

Fixpoint spaces (n : nat) : string :=
  match n with
  | O => ""
  | S m => String " " (spaces m)
  end.

Section Encoder.
(** [float.__repr__] on a finite float: the shortest decimal literal that
    reads back as the same float.  It is a function of the Python runtime
    and is not modelled further. *)
Variable float_repr : float -> string.
(** The [indent] argument. *)
Variable indent : nat.

Definition floatstr (o : float) : string :=
  match o with
  | S754_nan => "NaN"
  | S754_infinity false => "Infinity"
  | S754_infinity true => "-Infinity"
  | _ => float_repr o
  end.

Definition newline_indent (level : nat) : string :=
  nl ++ spaces (indent * level).

(** The encoder at a nesting level: an empty container is written closed,
    any other with one item per line, indented one level deeper, and the
    closing bracket on a line of its own at the container's level. *)
Fixpoint encode (level : nat) (v : pyval) {struct v} : string :=
  match v with
  | PyFloat x => floatstr x
  | PyList [] => "[]"
  | PyList (x :: xs) =>
      "[" ++ newline_indent (S level) ++ encode (S level) x
      ++ (fix items (l : list pyval) : string :=
            match l with
            | [] => ""
            | y :: ys =>
                "," ++ newline_indent (S level) ++ encode (S level) y ++ items ys
            end) xs
      ++ newline_indent level ++ "]"
  | PyDict [] => "{}"
  | PyDict ((k, x) :: xs) =>
      "{" ++ newline_indent (S level) ++ encode_str k ++ ": " ++ encode (S level) x
      ++ (fix members (l : list (string * pyval)) : string :=
            match l with
            | [] => ""
            | (k', y) :: ys =>
                "," ++ newline_indent (S level) ++ encode_str k' ++ ": "
                ++ encode (S level) y ++ members ys
            end) xs
      ++ newline_indent level ++ "}"
  end.

(** [json.dumps(v, indent=indent)]. *)
Definition dumps (v : pyval) : string := encode 0 v.
End Encoder.

(** ** json.loads *)

(** The decoder, restricted to the documents the script can print: numbers
    with a fraction or an exponent, the constants NaN, Infinity and
    -Infinity, arrays, and objects.  On such a document it gives what
    [json.loads] gives; on any other (a string, an integer, [true], [false]
    or [null] as a value, an escape of a code point above 255, a malformed document) it
    gives [None]. *)

Definition is_ws (c : ascii) : bool :=
  let n := nat_of_ascii c in
  Nat.eqb n 32 || Nat.eqb n 9 || Nat.eqb n 10 || Nat.eqb n 13.

Fixpoint skip_ws (s : string) : string :=
  match s with
  | String c r => if is_ws c then skip_ws r else s
  | EmptyString => s
  end.

Definition is_digit (c : ascii) : bool :=
  let n := nat_of_ascii c in Nat.leb 48 n && Nat.leb n 57.

(** The longest prefix of digits, and what follows it. *)
Fixpoint span_digits (s : string) : string * string :=
  match s with
  | String c r =>
      if is_digit c
      then let (d, rest) := span_digits r in (String c d, rest)
      else ("", s)
  | EmptyString => ("", "")
  end.

Definition is_empty (s : string) : bool :=
  match s with EmptyString => true | _ => false end.

(** The digits of the integer part: a single 0, or a non-zero digit and any
    digits. *)
Definition match_magnitude (sign s : string) : option (string * string) :=
  match s with
  | String c r =>
      if Ascii.eqb c "0" then Some (sign ++ "0", r)
      else if is_digit c
      then let (d, rest) := span_digits r in Some (sign ++ String c d, rest)
      else None
  | EmptyString => None
  end.

(** The integer part of a number: an optional minus sign, then its digits. *)
Definition match_integer (s : string) : option (string * string) :=
  match s with
  | String c r => if Ascii.eqb c "-" then match_magnitude "-" r else match_magnitude "" s
  | EmptyString => None
  end.

(** The optional fraction: a point and at least one digit. *)
Definition match_frac (s : string) : string * string :=
  match s with
  | String c r =>
      if Ascii.eqb c "."
      then let (d, rest) := span_digits r in
           if is_empty d then ("", s) else (String c d, rest)
      else ("", s)
  | EmptyString => ("", s)
  end.

(** The optional exponent: e or E, an optional sign, at least one digit. *)
Definition match_exp (s : string) : string * string :=
  match s with
  | String c r =>
      if Ascii.eqb c "e" || Ascii.eqb c "E"
      then
        let (sign, r1) :=
          match r with
          | String c' r' =>
              if Ascii.eqb c' "+" || Ascii.eqb c' "-" then (String c' "", r') else ("", r)
          | EmptyString => ("", r)
          end in
        let (d, rest) := span_digits r1 in
        if is_empty d then ("", s) else (String c (sign ++ d), rest)
      else ("", s)
  | EmptyString => ("", s)
  end.

(** A number at the head of the text: its literal, whether it has a fraction
    or an exponent (a float; an integer otherwise), and what follows it. *)
Definition match_number (s : string) : option (string * bool * string) :=
  match match_integer s with
  | Some (integer, r) =>
      let (frac, r1) := match_frac r in
      let (exp, r2) := match_exp r1 in
      Some (integer ++ frac ++ exp, negb (is_empty frac && is_empty exp), r2)
  | None => None
  end.

(** The text is one JSON number literal with a fraction or an exponent. *)
Definition is_float_literal (s : string) : bool :=
  match match_number s with
  | Some (lexeme, true, EmptyString) => String.eqb lexeme s
  | _ => false
  end.

Definition hex_value (c : ascii) : option nat :=
  let n := nat_of_ascii c in
  if Nat.leb 48 n && Nat.leb n 57 then Some (n - 48)%nat
  else if Nat.leb 97 n && Nat.leb n 102 then Some (n - 87)%nat
  else if Nat.leb 65 n && Nat.leb n 70 then Some (n - 55)%nat
  else None.

(** The character a short escape stands for. *)
Definition unescape (c : ascii) : option ascii :=
  let n := nat_of_ascii c in
  if Nat.eqb n 34 then Some quote
  else if Nat.eqb n 92 then Some backslash
  else if Nat.eqb n 47 then Some "/"%char
  else if Nat.eqb n 98 then Some (ascii_of_nat 8)
  else if Nat.eqb n 102 then Some (ascii_of_nat 12)
  else if Nat.eqb n 110 then Some (ascii_of_nat 10)
  else if Nat.eqb n 114 then Some (ascii_of_nat 13)
  else if Nat.eqb n 116 then Some (ascii_of_nat 9)
  else None.

Definition push (c : ascii) (r : option (string * string)) : option (string * string) :=
  match r with
  | Some (s, rest) => Some (String c s, rest)
  | None => None
  end.

(** The body of a string literal, after its opening quote, up to the closing
    quote: the string it denotes, and what follows the closing quote. *)
Fixpoint scanstring (s : string) : option (string * string) :=
  match s with
  | EmptyString => None
  | String c r =>
      if Ascii.eqb c quote then Some ("", r)
      else if Ascii.eqb c backslash then
        match r with
        | String e r' =>
            if Ascii.eqb e "u" then
              match r' with
              | String h1 (String h2 (String h3 (String h4 r''))) =>
                  match hex_value h1, hex_value h2, hex_value h3, hex_value h4 with
                  | Some 0%nat, Some 0%nat, Some a, Some b =>
                      push (ascii_of_nat (16 * a + b)) (scanstring r'')
                  | _, _, _, _ => None
                  end
              | _ => None
              end
            else
              match unescape e with
              | Some ch => push ch (scanstring r')
              | None => None
              end
        | EmptyString => None
        end
      else if Nat.ltb (nat_of_ascii c) 32 then None
      else push c (scanstring r)
  end.

(** [d[k] = v] on an insertion-ordered dictionary. *)
Fixpoint dict_set (k : string) (v : pyval) (d : list (string * pyval))
  : list (string * pyval) :=
  match d with
  | [] => [(k, v)]
  | (k', v') :: rest =>
      if String.eqb k k' then (k', v) :: rest else (k', v') :: dict_set k v rest
  end.

(** [dict(pairs)]: a later pair replaces the value of an earlier one of the
    same key. *)
Definition dict_of_pairs (pairs : list (string * pyval)) : list (string * pyval) :=
  fold_left (fun d kv => dict_set (fst kv) (snd kv) d) pairs [].

(** Whether the text starts with the given word, and what follows it. *)
Fixpoint strip_prefix (word s : string) : option string :=
  match word, s with
  | EmptyString, _ => Some s
  | String a w, String b r => if Ascii.eqb a b then strip_prefix w r else None
  | String _ _, EmptyString => None
  end.

Section Decoder.
(** [float(literal)] on a JSON number literal: the float nearest to the
    decimal number.  It is a function of the Python runtime and is not
    modelled further. *)
Variable float_of_str : string -> float.

(** The constants the decoder accepts besides numbers. *)
Definition scan_constant (s : string) : option (pyval * string) :=
  match strip_prefix "NaN" s with
  | Some r => Some (PyFloat S754_nan, r)
  | None =>
      match strip_prefix "Infinity" s with
      | Some r => Some (PyFloat (S754_infinity false), r)
      | None =>
          match strip_prefix "-Infinity" s with
          | Some r => Some (PyFloat (S754_infinity true), r)
          | None => None
          end
      end
  end.

(** A number or a constant at the head of the text. *)
Definition scan_number (s : string) : option (pyval * string) :=
  match match_number s with
  | Some (lexeme, true, r) => Some (PyFloat (float_of_str lexeme), r)
  | Some (_, false, _) => None
  | None => scan_constant s
  end.

(** One value at the head of the text and what follows it.  The fuel bounds
    the number of values still to be read; the length of the text is enough. *)
Fixpoint scan_once (fuel : nat) (s : string) {struct fuel} : option (pyval * string) :=
  match fuel with
  | O => None
  | S n =>
      match s with
      | EmptyString => None
      | String c r =>
          if Ascii.eqb c "[" then
            match skip_ws r with
            | String c' r' =>
                if Ascii.eqb c' "]" then Some (PyList [], r')
                else
                  match array_items n (String c' r') with
                  | Some (l, rest) => Some (PyList l, rest)
                  | None => None
                  end
            | EmptyString => None
            end
          else if Ascii.eqb c "{" then
            match skip_ws r with
            | String c' r' =>
                if Ascii.eqb c' "}" then Some (PyDict [], r')
                else
                  match object_members n (String c' r') with
                  | Some (pairs, rest) => Some (PyDict (dict_of_pairs pairs), rest)
                  | None => None
                  end
            | EmptyString => None
            end
          else scan_number s
      end
  end

(** The items of a non-empty array, from its first value to the closing
    bracket. *)
with array_items (fuel : nat) (s : string) {struct fuel}
  : option (list pyval * string) :=
  match fuel with
  | O => None
  | S n =>
      match scan_once n s with
      | Some (v, r) =>
          match skip_ws r with
          | String c r' =>
              if Ascii.eqb c "]" then Some ([v], r')
              else if Ascii.eqb c "," then
                match array_items n (skip_ws r') with
                | Some (vs, rest) => Some (v :: vs, rest)
                | None => None
                end
              else None
          | EmptyString => None
          end
      | None => None
      end
  end

(** The members of a non-empty object, from the opening quote of its first
    key to the closing brace. *)
with object_members (fuel : nat) (s : string) {struct fuel}
  : option (list (string * pyval) * string) :=
  match fuel with
  | O => None
  | S n =>
      match s with
      | String q r0 =>
          if Ascii.eqb q quote then
            match scanstring r0 with
            | Some (key, r1) =>
                match skip_ws r1 with
                | String c r2 =>
                    if Ascii.eqb c ":" then
                      match scan_once n (skip_ws r2) with
                      | Some (v, r3) =>
                          match skip_ws r3 with
                          | String c' r4 =>
                              if Ascii.eqb c' "}" then Some ([(key, v)], r4)
                              else if Ascii.eqb c' "," then
                                match object_members n (skip_ws r4) with
                                | Some (ms, rest) => Some ((key, v) :: ms, rest)
                                | None => None
                                end
                              else None
                          | EmptyString => None
                          end
                      | None => None
                      end
                    else None
                | EmptyString => None
                end
            | None => None
            end
          else None
      | EmptyString => None
      end
  end.

(** [json.loads(s)]: one value, with white space around it and nothing else. *)
Definition loads (s : string) : option pyval :=
  match scan_once (String.length s) (skip_ws s) with
  | Some (v, rest) => if is_empty (skip_ws rest) then Some v else None
  | None => None
  end.

(** What a value becomes when it is printed and read again: a finite number
    goes through its literal. *)
Variable float_repr : float -> string.

Fixpoint reread (v : pyval) : pyval :=
  match v with
  | PyFloat x => PyFloat (if Fl.is_finite x then float_of_str (float_repr x) else x)
  | PyList l => PyList (map reread l)
  | PyDict d => PyDict (map (fun kv => (fst kv, reread (snd kv))) d)
  end.
End Decoder.

(** The runtime prints every finite number of the value as a JSON number
    literal with a fraction or an exponent, as [float.__repr__] does. *)
Fixpoint literals (float_repr : float -> string) (v : pyval) : bool :=
  match v with
  | PyFloat x => if Fl.is_finite x then is_float_literal (float_repr x) else true
  | PyList l => forallb (literals float_repr) l
  | PyDict d => forallb (fun kv => literals float_repr (snd kv)) d
  end.

Fixpoint distinct (l : list string) : bool :=
  match l with
  | [] => true
  | k :: rest => negb (existsb (String.eqb k) rest) && distinct rest
  end.

(** The keys of every dictionary of the value are distinct, as they are in
    any Python dictionary. *)
Fixpoint well_formed (v : pyval) : bool :=
  match v with
  | PyFloat _ => true
  | PyList l => forallb well_formed l
  | PyDict d => distinct (map fst d) && forallb (fun kv => well_formed (snd kv)) d
  end.

(** *** Notions for reading a printed document back *)

(** What may follow a value in a printed document: nothing, a comma or a
    line break. *)
Definition delimited (rest : string) : Prop :=
  match rest with
  | EmptyString => True
  | String c _ => c = ","%char \/ c = ascii_of_nat 10
  end.

(** A delimiter ends a number: it is no digit, point, exponent mark or sign. *)
Definition ends_number (c : ascii) : Prop :=
  is_digit c = false /\ Ascii.eqb c "." = false /\
  (Ascii.eqb c "e" || Ascii.eqb c "E") = false /\
  (Ascii.eqb c "+" || Ascii.eqb c "-") = false /\
  Ascii.eqb c "0" = false.

(** The first character of a printed value: no white space and no bracket
    that closes a container. *)
Definition opens_value (c : ascii) : Prop :=
  is_ws c = false /\ Ascii.eqb c "]" = false /\ Ascii.eqb c "}" = false /\
  Ascii.eqb c "[" = false /\ Ascii.eqb c "{" = false.

(** The items of an array after the first, each behind its separator. *)
Definition encode_items (float_repr : float -> string) (indent level : nat)
  : list pyval -> string :=
  fix items (l : list pyval) : string :=
    match l with
    | [] => ""
    | y :: ys =>
        "," ++ newline_indent indent (S level)
        ++ encode float_repr indent (S level) y ++ items ys
    end.

(** The members of an object after the first. *)
Definition encode_members (float_repr : float -> string) (indent level : nat)
  : list (string * pyval) -> string :=
  fix members (l : list (string * pyval)) : string :=
    match l with
    | [] => ""
    | (k, y) :: ys =>
        "," ++ newline_indent indent (S level) ++ encode_str k ++ ": "
        ++ encode float_repr indent (S level) y ++ members ys
    end.

(** A bound on the fuel the decoder needs for a printed value. *)
Fixpoint cost (v : pyval) : nat :=
  match v with
  | PyFloat _ => 1
  | PyList l => S (fold_right (fun x n => S (cost x + n)) 0%nat l)
  | PyDict d => S (fold_right (fun kv n => S (cost (snd kv) + n)) 0%nat d)
  end.

Definition cost_items (l : list pyval) : nat :=
  fold_right (fun x n => S (cost x + n)) 0%nat l.
Definition cost_members (d : list (string * pyval)) : nat :=
  fold_right (fun kv n => S (cost (snd kv) + n)) 0%nat d.

(** The round trip of one value: printed at any nesting level and followed
    by a delimiter, it is read back, each finite number through its text. *)
Definition round_trips (float_of_str : string -> float) (float_repr : float -> string)
    (indent : nat) (v : pyval) : Prop :=
  well_formed v = true -> literals float_repr v = true ->
  forall level fuel rest,
    (cost v <= fuel)%nat -> delimited rest ->
    scan_once float_of_str fuel (encode float_repr indent level v ++ rest)
    = Some (reread float_of_str float_repr v, rest).

End json.

(** ** The command line entry point *)

(** What a run leaves behind: the two streams and the exit status. *)
Record process := { stdout : string; stderr : string; status : Z }.

Definition usage : string := "Usage: python voice_emotion_analysis.py <audio_file>".

(** The [__main__] block; [argv] is [sys.argv], the script's name first.
    [sys.exit(1)] ends the run at once with status 1; a run that reaches the
    end of the script exits with status 0.  The import guard at the top of
    the script (a message and status 1 when librosa or scipy is missing) comes
    before all of this: the libraries are taken to be installed.  The error
    stream of a run that analyses a file holds the warnings of the libraries,
    all of them written during the call of [extract_prosodic_features], and
    after them what the function itself has printed. *)
Definition main (L : Librosa) (float_repr : float -> string) (argv : list string)
  : process :=
  if negb (Nat.eqb (List.length argv) 2)
  then {| stdout := ""; stderr := print usage ""; status := 1 |}
  else
    let audio_path := nth 1 argv "" in
    let '(features, printed) := extract_prosodic_features L audio_path in
    let err := warnings L audio_path ++ printed in
    if truthy features
    then
      match features with
      | Some d => {| stdout := print (json.dumps float_repr 2 d) ""; stderr := err; status := 0 |}
      | None => {| stdout := ""; stderr := err; status := 1 |}
      end
    else {| stdout := ""; stderr := err; status := 1 |}.

(** ** What one extraction sees of the library *)

(** The values the library calls of one extraction return, and with them
    [tempo], the number [float] makes of the tempo of the beat tracker. *)
Record run := {
  y : list float;
  sr : Z;
  f0 : list float;
  voiced_flag : list bool;
  voiced_probs : list float;
  rms2 : list (list float);
  centroid2 : list (list float);
  rolloff2 : list (list float);
  beat_tempo : np.value;
  tempo : float;
  beats : list Z;
  spectrum : list (list (float * float));
  freqs : list float
}.

(** Every library call of the extraction of [audio_path] succeeds, with the
    values of [r]. *)
Definition answers (L : Librosa) (audio_path : string) (r : run) : Prop :=
  load L audio_path = Ok (y r, sr r) /\
  pyin L (y r) 50 400 = Ok (f0 r, voiced_flag r, voiced_probs r) /\
  feature_rms L (y r) = Ok (rms2 r) /\
  feature_spectral_centroid L (y r) (sr r) = Ok (centroid2 r) /\
  feature_spectral_rolloff L (y r) (sr r) = Ok (rolloff2 r) /\
  beat_track L (y r) (sr r) = Ok (beat_tempo r, beats r) /\
  stft L (y r) = Ok (spectrum r) /\
  fft_frequencies L (sr r) = Ok (freqs r).

(** The file is decodable and analysable: every library call succeeds with
    the values of [r], and the tempo among them is one [float] accepts, as
    the number [tempo r]. *)
Definition returns (L : Librosa) (audio_path : string) (r : run) : Prop :=
  answers L audio_path r /\
  np.to_float (numpy L) (beat_tempo r) = Ok (tempo r).

(** The shapes librosa promises: the pitch track and its voicing flags are
    aligned, and a feature matrix has one row, of at least one frame. *)
Definition well_shaped (r : run) : Prop :=
  List.length (f0 r) = List.length (voiced_flag r) /\
  (exists row rest, rms2 r = row :: rest /\ row <> []) /\
  centroid2 r <> [] /\
  rolloff2 r <> [].

(** The frame-wise RMS amplitudes, [rms(y=y)[0]]. *)
Definition rms (r : run) : list float := hd [] (rms2 r).

(** The frame-wise energies, [rms ** 2]. *)
Definition energy (r : run) : list float := np.square b32 (rms r).

(** The pitch estimates of the frames flagged as voiced, in frame order. *)
Definition voiced_values (r : run) : list float :=
  map fst (filter snd (combine (f0 r) (voiced_flag r))).

(** The coefficient of variation of a sequence: its standard deviation
    divided by its mean. *)
Definition coefficient_of_variation (t : Fl.format) (a : list float) : float :=
  Fl.div t (np.std t a) (np.mean t a).

(** The number of elements of a Python list. *)
Definition py_len (v : pyval) : nat :=
  match v with
  | PyList l => List.length l
  | _ => 0
  end.

(** The contract of [librosa.pyin]: the estimate of a voiced frame lies
    between the bounds the caller passed. *)
Definition pyin_within_bounds (L : Librosa) : Prop :=
  forall y fmin fmax f0 flags probs,
    pyin L y fmin fmax = Ok (f0, flags, probs) ->
    forall i x,
      nth_error f0 i = Some x -> nth_error flags i = Some true ->
      Fl.leb (Fl.lit fmin) x = true /\ Fl.leb x (Fl.lit fmax) = true.

(** The successive differences of a sequence of integers. *)
Definition successive_differences (a : list Z) : list Z :=
  map (fun p => snd p - fst p) (combine a (tl a)).

(** The intervals between the detected beats, as floats. *)
Definition inter_beat_intervals (r : run) : list float :=
  map (Fl.of_Z b64) (successive_differences (beats r)).

(** Beat positions are frame indices: non-negative int64 values. *)
Definition beat_frames (r : run) : Prop :=
  Forall (fun b => 0 <= b < 2 ^ 63) (beats r).

(** Jitter as the coefficient of variation of the successive differences of
    the voiced pitch values, 0.01 when there are fewer than two of them. *)
Definition cv_jitter (voiced : list float) : float :=
  if Nat.ltb (List.length voiced) 2 then Fl.lit_0_01
  else coefficient_of_variation b64 (np.diff b64 voiced).

(** Shimmer as the coefficient of variation of the successive differences of
    the RMS amplitudes. *)
Definition cv_shimmer (amplitudes : list float) : float :=
  Fl.cast b64 (coefficient_of_variation b32 (np.diff b32 amplitudes)).

(** Every number of a value is finite. *)
Fixpoint all_finite (v : pyval) : bool :=
  match v with
  | PyFloat x => Fl.is_finite x
  | PyList l => forallb all_finite l
  | PyDict d => forallb (fun kv => all_finite (snd kv)) d
  end.

(** The sub-keys the specification describes for each section (its section
    4.1, steps 2, 3, 5 and 6, and its testable properties), under the names
    the script gives them: the mean, variance, range and contour of the pitch;
    the mean, variance, range and contour of the energy; the speaking rate and
    the rhythm score; jitter, shimmer, the harmonics-to-noise ratio and the
    formants. *)
Definition documented_subkeys (section : string) : list string :=
  if String.eqb section "pitch"
  then ["mean_f0"; "f0_variance"; "f0_range"; "pitch_contour"]
  else if String.eqb section "energy"
  then ["mean_energy"; "energy_variance"; "dynamic_range"; "energy_contour"]
  else if String.eqb section "timing"
  then ["speaking_rate"; "rhythm_score"]
  else if String.eqb section "voice_quality"
  then ["jitter"; "shimmer"; "hnr"; "formants"]
  else [].

(** The sub-keys of a section of a record. *)
Definition subkeys (section : string) (v : pyval) : option (list string) :=
  option_map keys (get section v).

(** ** Two stand-ins for the library *)

Module Examples.

(** The number of analysis frames of [n] samples (hop length 512, centred). *)
Definition frames (y : list float) : nat := S (List.length y / 512).

Definition zeros (t : Fl.format) (n : nat) : list float := repeat (Fl.of_Z t 0) n.

(** A warning as Python prints it: the place and the message on one line,
    the source line of the place, indented, on the next. *)
Definition warning (place message source : string) : string :=
  place ++ ": " ++ message ++ nl ++ "  " ++ source ++ nl.

(** The warning of numpy at line 61 of the script, where the shimmer of a
    recording of constant amplitude zero is 0.0/0.0. *)
Definition invalid_divide : string :=
  warning "voice_emotion_analysis.py:61"
    "RuntimeWarning: invalid value encountered in scalar divide"
    (String json.quote "shimmer" ++ String json.quote ": "
     ++ "float(np.std(np.diff(rms)) / np.mean(rms)),").

(** The warning of NumPy 1.25 to 2.3 at line 55 of the script, where [float]
    is given an array of one element. *)
Definition array_conversion : string :=
  warning "voice_emotion_analysis.py:55"
    ("DeprecationWarning: Conversion of an array with ndim > 0 to a scalar is deprecated, "
     ++ "and will error in future. Ensure you extract a single element from your array "
     ++ "before performing this operation. (Deprecated NumPy 1.25.)")
    (String json.quote "speaking_rate" ++ String json.quote ": "
     ++ "float(tempo * 2),  # Approximate words per minute").

(** The warning of librosa's decoder on a file it cannot open, which it
    attributes to the line of the call. *)
Definition decoder_fallback : string :=
  warning "voice_emotion_analysis.py:19"
    "UserWarning: PySoundFile failed. Trying audioread instead."
    "y, sr = librosa.load(audio_path, sr=None)".

(** The library on one second of digital silence at 22050 Hz, with NumPy
    2.4: no frame is voiced, every RMS amplitude is 0.0, and the beat
    tracker, finding no onset, reports the float 0.0 as tempo and no beat.
    Of the warnings numpy prints on such a recording, that of line 61 stands
    for all. *)
Definition silence : Librosa := {|
  load := fun _ => Ok (zeros b32 22050, 22050);
  pyin := fun y _ _ =>
    Ok (repeat S754_nan (frames y), repeat false (frames y), zeros b64 (frames y));
  feature_rms := fun y => Ok [zeros b32 (frames y)];
  feature_spectral_centroid := fun y _ => Ok [zeros b64 (frames y)];
  feature_spectral_rolloff := fun y _ => Ok [zeros b64 (frames y)];
  beat_track := fun _ _ => Ok (np.Scalar (Fl.lit 0), []);
  stft := fun y => Ok (repeat (repeat (Fl.of_Z b32 0, Fl.of_Z b32 0) (frames y)) 1025);
  fft_frequencies := fun _ => Ok (zeros b64 1025);
  numpy := np.V2_4;
  warnings := fun _ => invalid_divide
|}.

(** A power of two times an integer, as a float. *)
Definition scaled (t : Fl.format) (m e : Z) : float :=
  binary_normalize (Fl.prec t) (Fl.emax t) m e false.

(** A pitch estimate between the bounds given to the tracker. *)
Definition within (fmin fmax : Z) (x : float) : bool :=
  Fl.leb (Fl.lit fmin) x && Fl.leb x (Fl.lit fmax).

(** The library on a short voiced recording of four frames, with NumPy 2.3:
    pitch 100, 200 and 400 Hz on the three voiced frames, RMS amplitudes 0.25,
    0.5, 0.5 and 1.0, as tempo an array that holds 120, with beats at frames
    0, 1 and 3.  A file that does not exist cannot be loaded. *)
Definition voiced : Librosa := {|
  load := fun path =>
    if String.eqb path "missing.wav"
    then Raise (Exn "FileNotFoundError"
                  "[Errno 2] No such file or directory: 'missing.wav'")
    else Ok (zeros b32 1600, 16000);
  pyin := fun _ fmin fmax =>
    let f0 := [Fl.lit 100; S754_nan; Fl.lit 200; Fl.lit 400] in
    Ok (f0, map (within fmin fmax) f0,
        [scaled b64 1 (-1); scaled b64 1 (-3); scaled b64 1 (-1); scaled b64 1 (-1)]);
  feature_rms := fun _ =>
    Ok [[scaled b32 1 (-2); scaled b32 1 (-1); scaled b32 1 (-1); scaled b32 1 0]];
  feature_spectral_centroid := fun _ _ => Ok [zeros b64 4];
  feature_spectral_rolloff := fun _ _ => Ok [zeros b64 4];
  beat_track := fun _ _ => Ok (np.Array [Fl.lit 120], [0; 1; 3]);
  stft := fun _ => Ok (repeat (repeat (Fl.of_Z b32 0, Fl.of_Z b32 0) 4) 1025);
  fft_frequencies := fun _ => Ok (zeros b64 1025);
  numpy := np.V1_25;
  warnings := fun path =>
    if String.eqb path "missing.wav" then decoder_fallback else array_conversion
|}.

(** A decimal number [m * 10 ^ e], rounded to the nearest float64. *)
Definition decimal (negative : bool) (m e : Z) : float :=
  match m with
  | Zpos p =>
      if Z.leb 0 e
      then binary_normalize 53 1024 ((if negative then - m else m) * 10 ^ e) 0 negative
      else SFdiv 53 1024 (S754_finite negative p 0)
                         (S754_finite false (Z.to_pos (10 ^ (- e))) 0)
  | _ => S754_zero negative
  end.

(** The number a string of digits denotes. *)
Fixpoint digits_value (acc : Z) (s : string) : Z :=
  match s with
  | String c r => digits_value (10 * acc + (Z.of_nat (nat_of_ascii c) - 48)) r
  | EmptyString => acc
  end.

(** A stand-in for [float(literal)]: the float nearest to the number a JSON
    number literal denotes. *)
Definition float_of_str (s : string) : float :=
  let (negative, s1) :=
    match s with
    | String c r => if Ascii.eqb c "-" then (true, r) else (false, s)
    | EmptyString => (false, s)
    end in
  let (int_digits, r1) := json.span_digits s1 in
  let (frac_digits, r2) :=
    match r1 with
    | String c r => if Ascii.eqb c "." then json.span_digits r else ("", r1)
    | EmptyString => ("", r1)
    end in
  let exponent :=
    match r2 with
    | String _ (String c r) =>
        if Ascii.eqb c "-" then - digits_value 0 r
        else if Ascii.eqb c "+" then digits_value 0 r
        else digits_value 0 (String c r)
    | _ => 0
    end in
  decimal negative (digits_value 0 (int_digits ++ frac_digits))
          (exponent - Z.of_nat (String.length frac_digits)).

(** Structural equality of floats. *)
Definition same_float (x y : float) : bool :=
  match x, y with
  | S754_zero a, S754_zero b => Bool.eqb a b
  | S754_infinity a, S754_infinity b => Bool.eqb a b
  | S754_nan, S754_nan => true
  | S754_finite a m e, S754_finite b n f => Bool.eqb a b && Pos.eqb m n && Z.eqb e f
  | _, _ => false
  end.

(** [float.__repr__] on the finite numbers of the record of the silent
    recording; any other float is of no concern here (and printed as 0.0). *)
Definition float_repr (x : float) : string :=
  match find (fun entry => same_float x (fst entry))
             [ (Fl.lit 150, "150.0"); (Fl.lit 100, "100.0"); (Fl.lit 50, "50.0");
               (Fl.lit_0_01, "0.01"); (Fl.lit 15, "15.0");
               (Fl.lit 700, "700.0"); (Fl.lit 1200, "1200.0"); (Fl.lit 2500, "2500.0");
               (Fl.lit 70, "70.0") ] with
  | Some entry => snd entry
  | None => "0.0"
  end.

(** What the extraction sees of [voiced]. *)
Definition voiced_run : run := {|
  y := zeros b32 1600;
  sr := 16000;
  f0 := [Fl.lit 100; S754_nan; Fl.lit 200; Fl.lit 400];
  voiced_flag := [true; false; true; true];
  voiced_probs :=
    [scaled b64 1 (-1); scaled b64 1 (-3); scaled b64 1 (-1); scaled b64 1 (-1)];
  rms2 := [[scaled b32 1 (-2); scaled b32 1 (-1); scaled b32 1 (-1); scaled b32 1 0]];
  centroid2 := [zeros b64 4];
  rolloff2 := [zeros b64 4];
  beat_tempo := np.Array [Fl.lit 120];
  tempo := Fl.lit 120;
  beats := [0; 1; 3];
  spectrum := repeat (repeat (Fl.of_Z b32 0, Fl.of_Z b32 0) 4) 1025;
  freqs := zeros b64 1025
|}.

(** What the extraction sees of [silence]. *)
Definition silence_run : run := {|
  y := zeros b32 22050;
  sr := 22050;
  f0 := repeat S754_nan 44;
  voiced_flag := repeat false 44;
  voiced_probs := zeros b64 44;
  rms2 := [zeros b32 44];
  centroid2 := [zeros b64 44];
  rolloff2 := [zeros b64 44];
  beat_tempo := np.Scalar (Fl.lit 0);
  tempo := Fl.lit 0;
  beats := [];
  spectrum := repeat (repeat (Fl.of_Z b32 0, Fl.of_Z b32 0) 44) 1025;
  freqs := zeros b64 1025
|}.

End Examples.

(** ** The script as a whole *)

Definition import_error : string :=
  "Error: librosa and scipy are required for advanced voice analysis".

(** What the imports at the top of the script find.  [import numpy], at
    line 7, is outside the [try] block: without numpy the interpreter ends
    the run with a traceback, whose lines between the header and the name of
    the exception are [frames].  With numpy, [import librosa] or [import
    scipy.stats] may raise ImportError, which the guard catches; otherwise
    the libraries are there.  [imported] is what the packages have written to
    the error stream while they were imported, mostly nothing. *)
Inductive installation :=
| NoNumpy (frames : string)
| NoLibraries (imported : string)
| Installed (imported : string) (L : Librosa).

(** The script from its first line: the imports and their guard, then the
    [__main__] block. *)
Definition script (found : installation) (float_repr : float -> string)
    (argv : list string) : process :=
  match found with
  | NoNumpy frames =>
      {| stdout := "";
         stderr := "Traceback (most recent call last):" ++ nl ++ frames
                   ++ "ModuleNotFoundError: No module named 'numpy'" ++ nl;
         status := 1 |}
  | NoLibraries imported =>
      {| stdout := ""; stderr := print import_error imported; status := 1 |}
  | Installed imported L =>
      let run := main L float_repr argv in
      {| stdout := stdout run; stderr := imported ++ stderr run; status := status run |}
  end.

(** A float that is not negative: its sign bit is clear, or it is NaN. *)
Definition not_negative (x : float) : bool :=
  match x with
  | S754_zero s | S754_infinity s | S754_finite s _ _ => negb s
  | S754_nan => true
  end.

(** The eight partial sums of [np.sum]'s unrolled loop are not negative. *)
Definition lanes_not_negative (r : np.lanes) : Prop :=
  not_negative (np.r0 r) = true /\ not_negative (np.r1 r) = true /\
  not_negative (np.r2 r) = true /\ not_negative (np.r3 r) = true /\
  not_negative (np.r4 r) = true /\ not_negative (np.r5 r) = true /\
  not_negative (np.r6 r) = true /\ not_negative (np.r7 r) = true.

(** Every number of a value is not negative. *)
Fixpoint none_negative (v : pyval) : bool :=
  match v with
  | PyFloat x => not_negative x
  | PyList l => forallb none_negative l
  | PyDict d => forallb (fun kv => none_negative (snd kv)) d
  end.

(** The runtime reads every finite number of the value back from its text as
    the same float, as [float(repr(x)) == x] holds in Python. *)
Fixpoint exact_numbers (float_of_str : string -> float) (float_repr : float -> string)
    (v : pyval) : bool :=
  match v with
  | PyFloat x =>
      if Fl.is_finite x then Examples.same_float (float_of_str (float_repr x)) x else true
  | PyList l => forallb (exact_numbers float_of_str float_repr) l
  | PyDict d => forallb (fun kv => exact_numbers float_of_str float_repr (snd kv)) d
  end.

Module Variants.

(** The library on a click of 256 samples, with NumPy 2.4: a single analysis
    frame, unvoiced, of RMS amplitude 0.5, and no beat. *)
Definition click : Librosa := {|
  load := fun _ => Ok (repeat (Examples.scaled b32 1 (-1)) 256, 8000);
  pyin := fun _ _ _ => Ok ([S754_nan], [false], [Examples.scaled b64 1 (-6)]);
  feature_rms := fun _ => Ok [[Examples.scaled b32 1 (-1)]];
  feature_spectral_centroid := fun _ _ => Ok [[Fl.lit 2000]];
  feature_spectral_rolloff := fun _ _ => Ok [[Fl.lit 3400]];
  beat_track := fun _ _ => Ok (np.Scalar (Fl.lit 0), []);
  stft := fun _ => Ok (repeat [(Examples.scaled b32 1 (-1), Fl.of_Z b32 0)] 1025);
  fft_frequencies := fun _ => Ok (Examples.zeros b64 1025);
  numpy := np.V2_4;
  warnings := fun _ => Examples.invalid_divide
|}.

Definition click_run : run := {|
  y := repeat (Examples.scaled b32 1 (-1)) 256;
  sr := 8000;
  f0 := [S754_nan];
  voiced_flag := [false];
  voiced_probs := [Examples.scaled b64 1 (-6)];
  rms2 := [[Examples.scaled b32 1 (-1)]];
  centroid2 := [[Fl.lit 2000]];
  rolloff2 := [[Fl.lit 3400]];
  beat_tempo := np.Scalar (Fl.lit 0);
  tempo := Fl.lit 0;
  beats := [];
  spectrum := repeat [(Examples.scaled b32 1 (-1), Fl.of_Z b32 0)] 1025;
  freqs := Examples.zeros b64 1025
|}.

(** The voiced recording of [Examples.voiced] as another build of the
    library sees it: the same pitch track, amplitudes, tempo and beats, and
    other spectral features, voicing probabilities and sample rate. *)
Definition voiced_resampled : Librosa := {|
  load := fun _ => Ok (Examples.zeros b32 2205, 22050);
  pyin := fun _ fmin fmax =>
    let f0 := [Fl.lit 100; S754_nan; Fl.lit 200; Fl.lit 400] in
    Ok (f0, map (Examples.within fmin fmax) f0,
        [Examples.scaled b64 3 (-2); Examples.scaled b64 1 (-4);
         Examples.scaled b64 3 (-2); Examples.scaled b64 3 (-2)]);
  feature_rms := fun _ =>
    Ok [[Examples.scaled b32 1 (-2); Examples.scaled b32 1 (-1);
         Examples.scaled b32 1 (-1); Examples.scaled b32 1 0]];
  feature_spectral_centroid := fun _ _ => Ok [repeat (Fl.lit 1500) 4];
  feature_spectral_rolloff := fun _ _ => Ok [repeat (Fl.lit 4000) 4];
  beat_track := fun _ _ => Ok (np.Array [Fl.lit 120], [0; 1; 3]);
  stft := fun _ => Ok (repeat (repeat (Fl.of_Z b32 1, Fl.of_Z b32 0) 4) 1025);
  fft_frequencies := fun _ => Ok (repeat (Fl.lit 10) 1025);
  numpy := np.V1_25;
  warnings := fun _ => Examples.array_conversion
|}.

Definition voiced_resampled_run : run := {|
  y := Examples.zeros b32 2205;
  sr := 22050;
  f0 := [Fl.lit 100; S754_nan; Fl.lit 200; Fl.lit 400];
  voiced_flag := [true; false; true; true];
  voiced_probs :=
    [Examples.scaled b64 3 (-2); Examples.scaled b64 1 (-4);
     Examples.scaled b64 3 (-2); Examples.scaled b64 3 (-2)];
  rms2 := [[Examples.scaled b32 1 (-2); Examples.scaled b32 1 (-1);
            Examples.scaled b32 1 (-1); Examples.scaled b32 1 0]];
  centroid2 := [repeat (Fl.lit 1500) 4];
  rolloff2 := [repeat (Fl.lit 4000) 4];
  beat_tempo := np.Array [Fl.lit 120];
  tempo := Fl.lit 120;
  beats := [0; 1; 3];
  spectrum := repeat (repeat (Fl.of_Z b32 1, Fl.of_Z b32 0) 4) 1025;
  freqs := repeat (Fl.lit 10) 1025
|}.

(** The library on a recording of 150 analysis frames, with NumPy 2.3: every
    frame is voiced, the pitch rising by 1 Hz a frame from 101 Hz to 250 Hz
    and the RMS amplitude by 1/256 a frame from 1/256 to 150/256, with a beat
    every 40 frames.  The samples, which the script only hands on, are left
    at zero. *)
Definition long_tone : Librosa := {|
  load := fun _ => Ok (Examples.zeros b32 76288, 8000);
  pyin := fun _ fmin fmax =>
    let f0 := map (fun i => Fl.lit (Z.of_nat i)) (seq 101 150) in
    Ok (f0, map (Examples.within fmin fmax) f0, repeat (Examples.scaled b64 1 (-1)) 150);
  feature_rms := fun _ =>
    Ok [map (fun i => Examples.scaled b32 (Z.of_nat i) (-8)) (seq 1 150)];
  feature_spectral_centroid := fun _ _ => Ok [Examples.zeros b64 150];
  feature_spectral_rolloff := fun _ _ => Ok [Examples.zeros b64 150];
  beat_track := fun _ _ => Ok (np.Array [Fl.lit 90], [10; 50; 90; 130]);
  stft := fun _ => Ok (repeat (repeat (Fl.of_Z b32 0, Fl.of_Z b32 0) 150) 1025);
  fft_frequencies := fun _ => Ok (Examples.zeros b64 1025);
  numpy := np.V1_25;
  warnings := fun _ => Examples.array_conversion
|}.

Definition long_tone_run : run := {|
  y := Examples.zeros b32 76288;
  sr := 8000;
  f0 := map (fun i => Fl.lit (Z.of_nat i)) (seq 101 150);
  voiced_flag := repeat true 150;
  voiced_probs := repeat (Examples.scaled b64 1 (-1)) 150;
  rms2 := [map (fun i => Examples.scaled b32 (Z.of_nat i) (-8)) (seq 1 150)];
  centroid2 := [Examples.zeros b64 150];
  rolloff2 := [Examples.zeros b64 150];
  beat_tempo := np.Array [Fl.lit 90];
  tempo := Fl.lit 90;
  beats := [10; 50; 90; 130];
  spectrum := repeat (repeat (Fl.of_Z b32 0, Fl.of_Z b32 0) 150) 1025;
  freqs := Examples.zeros b64 1025
|}.

(** The line of the traceback that names the failing import. *)
Definition import_frame : string :=
  "  File " ++ String json.quote "voice_emotion_analysis.py"
  ++ String json.quote ", line 7, in <module>" ++ nl
  ++ "    import numpy as np" ++ nl.

(** The voiced recording of [Examples.voiced] with NumPy 2.4 in the place of
    NumPy 2.3: the answers of librosa are the same. *)
Definition voiced_strict : Librosa := {|
  load := load Examples.voiced;
  pyin := pyin Examples.voiced;
  feature_rms := feature_rms Examples.voiced;
  feature_spectral_centroid := feature_spectral_centroid Examples.voiced;
  feature_spectral_rolloff := feature_spectral_rolloff Examples.voiced;
  beat_track := beat_track Examples.voiced;
  stft := stft Examples.voiced;
  fft_frequencies := fft_frequencies Examples.voiced;
  numpy := np.V2_4;
  warnings := fun _ => ""
|}.

End Variants.

(** * Properties *)

(** ** The shape of a successful extraction *)

Lemma extract_some (L : Librosa) (audio_path : string) (d : pyval) (err : string) :
  extract_prosodic_features L audio_path = (Some d, err) ->
  features L audio_path = Ok d /\ err = "".
Proof.
  unfold extract_prosodic_features.
  destruct (features L audio_path) as [d'|e]; intros H; inversion H; auto.
Qed.

Lemma extract_of_features (L : Librosa) (audio_path : string) (d : pyval) :
  features L audio_path = Ok d ->
  extract_prosodic_features L audio_path = (Some d, "").
Proof.
  unfold extract_prosodic_features. intros ->. reflexivity.
Qed.

Lemma bind_ok {A B : Type} (c : result A) (k : A -> result B) (b : B) :
  bind c k = Ok b -> exists a, c = Ok a /\ k a = Ok b.
Proof.
  destruct c as [a|e]; simpl; intros H; [exists a; auto | discriminate].
Qed.

Lemma select_voiced_values (a : list float) (mask : list bool) :
  np.select a mask = map fst (filter snd (combine a mask)).
Proof.
  revert mask. induction a as [|x xs IH]; intros [|b bs]; simpl; auto.
  destruct b; simpl; rewrite IH; reflexivity.
Qed.

(** The order in which numpy adds shows in the last bits of a mean: of 87
    equal pitch estimates of 220.63576443274928 Hz, [np.mean] is
    220.63576443274943, where adding from left to right would give
    220.63576443274937. *)
Lemma mean_of_equal_estimates :
  np.mean Fl.binary64 (repeat (S754_finite false 7762930831905736 (-45)) 87)
    = S754_finite false 7762930831905741 (-45) /\
  Fl.div Fl.binary64
    (fold_left (Fl.add Fl.binary64)
       (repeat (S754_finite false 7762930831905736 (-45)) 87) (S754_zero true))
    (Fl.of_Z Fl.binary64 87)
    = S754_finite false 7762930831905739 (-45).
Proof. split; vm_compute; reflexivity. Qed.

Lemma mask_index_ok (a : list float) (mask : list bool) (c : list float) :
  np.mask_index a mask = Ok c ->
  List.length a = List.length mask /\ c = np.select a mask.
Proof.
  unfold np.mask_index.
  destruct (Nat.eqb (List.length a) (List.length mask)) eqn:E; intros H; inversion H.
  apply Nat.eqb_eq in E. auto.
Qed.

Lemma row0_ok (a : list (list float)) (row : list float) :
  np.row0 a = Ok row -> a <> [] /\ row = hd [] a.
Proof.
  destruct a as [|r rest]; simpl; intros H; inversion H. split; [discriminate | reflexivity].
Qed.

(** Once the library has answered, the extraction is the assembly of the
    four sections from the voiced pitch values, the RMS amplitudes, the tempo
    and the beats. *)
Lemma to_float_times (numpy : np.version) (v : np.value) (c : float) :
  np.to_float numpy (np.times v c) =
    x <- np.to_float numpy v ;; Ok (Fl.mul b64 x c).
Proof.
  destruct v as [x|[|x [|x' a]]], numpy; reflexivity.
Qed.

Lemma features_inv (L : Librosa) (audio_path : string) (r : run) (d : pyval) :
  returns L audio_path r ->
  features L audio_path = Ok d ->
  exists p e,
    pitch_section (voiced_values r) = Ok p /\
    energy_section (energy r) = Ok e /\
    d = PyDict [ ("pitch", p); ("energy", e);
                 ("timing", timing_section (Fl.mul b64 (tempo r) (Fl.lit 2)) (beats r));
                 ("voice_quality", voice_quality_section (voiced_values r) (rms r)) ].
Proof.
  intros ((Hload & Hpyin & Hrms & Hcen & Hroll & Hbeat & Hstft & Hfreq) & Htempo) H.
  unfold features in H. rewrite Hload in H. simpl in H.
  rewrite Hpyin in H. simpl in H.
  apply bind_ok in H as (c & Hc & H). apply mask_index_ok in Hc as (_ & ->).
  rewrite Hrms in H. simpl in H.
  apply bind_ok in H as (row & Hrow & H). apply row0_ok in Hrow as (_ & ->).
  rewrite Hcen in H. simpl in H. apply bind_ok in H as (? & _ & H).
  rewrite Hroll in H. simpl in H. apply bind_ok in H as (? & _ & H).
  rewrite Hbeat in H. simpl in H. rewrite Hstft in H. simpl in H.
  rewrite Hfreq in H. simpl in H.
  apply bind_ok in H as (p & Hp & H). apply bind_ok in H as (e & He & H).
  rewrite to_float_times, Htempo in H. simpl in H.
  inversion H. exists p, e. unfold voiced_values, energy, rms.
  rewrite <- select_voiced_values. auto.
Qed.

Lemma ptp_ok (t : Fl.format) (a : list float) :
  a <> [] -> exists v, np.ptp t a = Ok v.
Proof.
  destruct a as [|x xs]; [congruence|]. intros _. unfold np.ptp. simpl. eauto.
Qed.

Lemma pitch_section_ok (c : list float) : exists p, pitch_section c = Ok p.
Proof.
  unfold pitch_section. destruct c as [|x xs]; simpl; eauto.
Qed.

(** The extraction succeeds whenever the library has answered with arrays of
    the promised shapes. *)
Lemma features_total (L : Librosa) (audio_path : string) (r : run) :
  returns L audio_path r -> well_shaped r ->
  exists d, features L audio_path = Ok d.
Proof.
  intros ((Hload & Hpyin & Hrms & Hcen & Hroll & Hbeat & Hstft & Hfreq) & Htempo)
         (Hlen & (row & rest & Hrow & Hne) & Hc & Hr).
  unfold features. rewrite Hload. simpl. rewrite Hpyin. simpl.
  unfold np.mask_index. rewrite Hlen, Nat.eqb_refl. simpl.
  rewrite Hrms, Hrow. simpl. rewrite Hcen. simpl.
  destruct (centroid2 r) as [|c0 cs]; [congruence|]. simpl.
  rewrite Hroll. simpl. destruct (rolloff2 r) as [|r0 rs]; [congruence|]. simpl.
  rewrite Hbeat. simpl. rewrite Hstft. simpl. rewrite Hfreq. simpl.
  destruct (pitch_section_ok (np.select (f0 r) (voiced_flag r))) as (p & ->). simpl.
  unfold energy_section.
  destruct (ptp_ok b32 (np.square b32 row)) as (v & ->).
  { unfold np.square. destruct row; [congruence | discriminate]. }
  simpl. rewrite to_float_times, Htempo. simpl. eauto.
Qed.

(** A successful extraction has had an answer to each of its library calls. *)
Lemma features_ok_returns (L : Librosa) (audio_path : string) (d : pyval) :
  features L audio_path = Ok d -> exists r, returns L audio_path r.
Proof.
  unfold features. intros H.
  apply bind_ok in H as ([y sr] & Hload & H).
  apply bind_ok in H as ([[f0 flags] probs] & Hpyin & H).
  apply bind_ok in H as (c & _ & H).
  apply bind_ok in H as (rms2 & Hrms & H). apply bind_ok in H as (? & _ & H).
  apply bind_ok in H as (cen & Hcen & H). apply bind_ok in H as (? & _ & H).
  apply bind_ok in H as (roll & Hroll & H). apply bind_ok in H as (? & _ & H).
  apply bind_ok in H as ([tempo beats] & Hbeat & H).
  apply bind_ok in H as (spec & Hstft & H).
  apply bind_ok in H as (fr & Hfreq & H).
  apply bind_ok in H as (? & _ & H). apply bind_ok in H as (? & _ & H).
  apply bind_ok in H as (rate & Hrate & _).
  rewrite to_float_times in Hrate. apply bind_ok in Hrate as (number & Hnumber & _).
  exists (Build_run y sr f0 flags probs rms2 cen roll tempo number beats spec fr).
  unfold returns, answers. simpl. repeat split; assumption.
Qed.

(** The shape of the result as one statement about the named function. *)
Lemma extract_inv (L : Librosa) (audio_path : string) (r : run) (d : pyval) :
  returns L audio_path r ->
  extract_prosodic_features L audio_path = (Some d, "") ->
  exists p e,
    pitch_section (voiced_values r) = Ok p /\
    energy_section (energy r) = Ok e /\
    d = PyDict [ ("pitch", p); ("energy", e);
                 ("timing", timing_section (Fl.mul b64 (tempo r) (Fl.lit 2)) (beats r));
                 ("voice_quality", voice_quality_section (voiced_values r) (rms r)) ].
Proof.
  intros Hr H. apply extract_some in H as (H & _). eapply features_inv; eauto.
Qed.

Lemma pitch_section_inv (c : list float) (p : pyval) :
  pitch_section c = Ok p ->
  exists range,
    (if Nat.ltb 0 (List.length c) then np.ptp b64 c else Ok (Fl.lit 50)) = Ok range /\
    p = PyDict
      [ ("mean_f0", PyFloat (if Nat.ltb 0 (List.length c) then np.mean b64 c else Fl.lit 150));
        ("f0_variance", PyFloat (if Nat.ltb 0 (List.length c) then np.var b64 c else Fl.lit 100));
        ("f0_range", PyFloat range);
        ("pitch_contour",
          if Nat.ltb 0 (List.length c) then tolist (np.slice_to 100 c) else PyList []) ].
Proof.
  unfold pitch_section. intros H. apply bind_ok in H as (range & Hrange & H).
  inversion H. eauto.
Qed.

Lemma energy_section_inv (en : list float) (e : pyval) :
  energy_section en = Ok e ->
  exists range,
    np.ptp b32 en = Ok range /\
    e = PyDict
      [ ("mean_energy", PyFloat (Fl.cast b64 (np.mean b32 en)));
        ("energy_variance", PyFloat (Fl.cast b64 (np.var b32 en)));
        ("dynamic_range", PyFloat (Fl.cast b64 range));
        ("energy_contour", tolist32 (np.slice_to 100 en)) ].
Proof.
  unfold energy_section. intros H. apply bind_ok in H as (range & Hrange & H).
  inversion H. eauto.
Qed.

(** Destructs a successful extraction into its sections. *)
Ltac sections Hr H :=
  let p := fresh "p" in let e := fresh "e" in
  let Hp := fresh "Hp" in let He := fresh "He" in
  let pr := fresh "f0_range" in let er := fresh "dynamic_range" in
  let Hpr := fresh "Hf0_range" in let Her := fresh "Hdynamic_range" in
  destruct (extract_inv _ _ _ _ Hr H) as (p & e & Hp & He & ->);
  apply pitch_section_inv in Hp as (pr & Hpr & ->);
  apply energy_section_inv in He as (er & Her & ->).



Lemma in_firstn {A : Type} (n : nat) (l : list A) (x : A) :
  In x (firstn n l) -> In x l.
Proof.
  revert l. induction n as [|n IH]; intros [|a l]; simpl; try contradiction.
  intros [H|H]; [left; exact H | right; apply IH, H].
Qed.

Lemma firstn_length_le {A : Type} (n : nat) (l : list A) :
  (List.length (firstn n l) <= n)%nat.
Proof. rewrite length_firstn. apply Nat.le_min_l. Qed.

(** ** Stand-ins: what the library returned *)

Lemma voiced_returns :
  returns Examples.voiced "speech.wav" Examples.voiced_run.
Proof. unfold returns, answers. repeat split; vm_compute; reflexivity. Qed.

Lemma silence_returns :
  returns Examples.silence "silence.wav" Examples.silence_run.
Proof. unfold returns, answers. repeat split; vm_compute; reflexivity. Qed.


(** ** Pitch *)



Lemma voiced_values_in (r : run) (x : float) :
  In x (voiced_values r) ->
  exists i, nth_error (f0 r) i = Some x /\ nth_error (voiced_flag r) i = Some true.
Proof.
  unfold voiced_values. generalize (f0 r) (voiced_flag r).
  induction l as [|a l IH]; intros [|b bs]; simpl; try contradiction.
  destruct b; simpl.
  - intros [<- | Hin].
    + exists 0%nat. auto.
    + destruct (IH bs Hin) as (i & H1 & H2). exists (S i). auto.
  - intros Hin. destruct (IH bs Hin) as (i & H1 & H2). exists (S i). auto.
Qed.

(** C9: the pitch statistics and the pitch contour are those of the voiced
    frames alone (the fallback constants when there is none), and, the pitch
    tracker keeping a voiced estimate between the bounds it is given, every
    element of the pitch contour lies between 50 and 400. *)
Theorem pitch_over_voiced_frames
    (L : Librosa) (audio_path : string) (r : run) (d : pyval) :
  pyin_within_bounds L ->
  returns L audio_path r ->
  extract_prosodic_features L audio_path = (Some d, "") ->
  let v := voiced_values r in
  field "pitch" "mean_f0" d =
    Some (PyFloat (match v with [] => Fl.lit 150 | _ => np.mean b64 v end)) /\
  field "pitch" "f0_variance" d =
    Some (PyFloat (match v with [] => Fl.lit 100 | _ => np.var b64 v end)) /\
  (exists range,
     field "pitch" "f0_range" d = Some (PyFloat range) /\
     match v with [] => Ok (Fl.lit 50) | _ => np.ptp b64 v end = Ok range) /\
  field "pitch" "pitch_contour" d = Some (PyList (map PyFloat (firstn 100 v))) /\
  forall x, In x (firstn 100 v) ->
    Fl.leb (Fl.lit 50) x = true /\ Fl.leb x (Fl.lit 400) = true.
Proof.
  intros Hb Hr H v.
  assert (Hin : forall z, In z (firstn 100 v) ->
            Fl.leb (Fl.lit 50) z = true /\ Fl.leb z (Fl.lit 400) = true).
  { intros z Hz. apply in_firstn, voiced_values_in in Hz as (i & Hf & Hv).
    destruct Hr as ((_ & Hpyin & _) & _). exact (Hb _ _ _ _ _ _ Hpyin i z Hf Hv). }
  sections Hr H. revert Hin. subst v.
  destruct (voiced_values r) as [|x0 v']; intros Hin;
    (split; [reflexivity|]); (split; [reflexivity|]);
    (split; [exists f0_range; split; [reflexivity | exact Hf0_range]|]);
    (split; [reflexivity | exact Hin]).
Qed.

Lemma nth_error_flag {A : Type} (f : A -> bool) (l : list A) (i : nat) (x : A) :
  nth_error l i = Some x -> nth_error (map f l) i = Some true -> f x = true.
Proof.
  intros Hx Hf. rewrite (map_nth_error f i l Hx) in Hf. congruence.
Qed.

Lemma voiced_within_bounds : pyin_within_bounds Examples.voiced.
Proof.
  intros y fmin fmax f0 flags probs H i x Hf Hv.
  change (Ok ([Fl.lit 100; S754_nan; Fl.lit 200; Fl.lit 400],
              map (Examples.within fmin fmax) [Fl.lit 100; S754_nan; Fl.lit 200; Fl.lit 400],
              [Examples.scaled b64 1 (-1); Examples.scaled b64 1 (-3);
               Examples.scaled b64 1 (-1); Examples.scaled b64 1 (-1)])
          = Ok (f0, flags, probs)) in H.
  injection H as Hf0 Hflags _. rewrite <- Hf0 in Hf. rewrite <- Hflags in Hv.
  apply andb_prop. exact (nth_error_flag _ _ _ _ Hf Hv).
Qed.

Lemma pitch_over_voiced_frames_witness :
  exists d,
    extract_prosodic_features Examples.voiced "speech.wav" = (Some d, "") /\
    field "pitch" "pitch_contour" d =
      Some (PyList [PyFloat (Fl.lit 100); PyFloat (Fl.lit 200); PyFloat (Fl.lit 400)]) /\
    forall x, In x [Fl.lit 100; Fl.lit 200; Fl.lit 400] ->
      Fl.leb (Fl.lit 50) x = true /\ Fl.leb x (Fl.lit 400) = true.
Proof.
  eexists. split; [vm_compute; reflexivity|].
  refine ((fun H => conj (proj1 (proj2 (proj2 (proj2 H)))) (proj2 (proj2 (proj2 (proj2 H)))))
            (pitch_over_voiced_frames Examples.voiced "speech.wav" Examples.voiced_run _
               voiced_within_bounds voiced_returns _)).
  vm_compute. reflexivity.
Defined.

Lemma long_tone_returns :
  returns Variants.long_tone "tone.wav" Variants.long_tone_run.
Proof. unfold returns, answers. repeat split; vm_compute; reflexivity. Qed.

(** C5: the pitch contour is the list of the first 100 voiced pitch values
    (all of them when there are fewer), and the energy contour the list of
    the first 100 frame energies, each the float32 square of the RMS amplitude
    of its frame, widened to a Python float; so neither is longer than
    100. *)
Theorem contours_are_prefixes
    (L : Librosa) (audio_path : string) (r : run) (d : pyval) :
  returns L audio_path r ->
  extract_prosodic_features L audio_path = (Some d, "") ->
  exists pitch_contour energy_contour : list pyval,
    field "pitch" "pitch_contour" d = Some (PyList pitch_contour) /\
    field "energy" "energy_contour" d = Some (PyList energy_contour) /\
    pitch_contour = map PyFloat (firstn 100 (voiced_values r)) /\
    energy_contour =
      map (fun a => PyFloat (Fl.cast Fl.binary64 (Fl.mul Fl.binary32 a a)))
          (firstn 100 (rms r)) /\
    (List.length pitch_contour <= 100)%nat /\
    (List.length energy_contour <= 100)%nat.
Proof.
  intros Hr H. sections Hr H. cbn [field get assoc String.eqb Ascii.eqb Bool.eqb].
  exists (map PyFloat (firstn 100 (voiced_values r))).
  exists (map (fun a => PyFloat (Fl.cast Fl.binary64 (Fl.mul Fl.binary32 a a)))
              (firstn 100 (rms r))).
  split; [destruct (voiced_values r); reflexivity|].
  split.
  { unfold tolist32, np.slice_to, energy, np.square.
    rewrite firstn_map, map_map. reflexivity. }
  split; [reflexivity|]. split; [reflexivity|].
  rewrite !length_map. split; apply firstn_length_le.
Qed.

Lemma contours_are_prefixes_witness :
  exists d,
    extract_prosodic_features Variants.long_tone "tone.wav" = (Some d, "") /\
    List.length (voiced_values Variants.long_tone_run) = 150%nat /\
    List.length (rms Variants.long_tone_run) = 150%nat /\
    field "pitch" "pitch_contour" d =
      Some (PyList (map (fun hz => PyFloat (binary_normalize 53 1024 (Z.of_nat hz) 0 false))
                        (seq 101 100))) /\
    field "energy" "energy_contour" d =
      Some (PyList (map (fun i => PyFloat (binary_normalize 53 1024 (Z.of_nat (i * i)) (-16)
                                             false))
                        (seq 1 100))) /\
    nth_error (voiced_values Variants.long_tone_run) 100
      = Some (binary_normalize 53 1024 201 0 false) /\
    nth_error (rms Variants.long_tone_run) 100
      = Some (binary_normalize 24 128 101 (-8) false).
Proof.
  eexists.
  assert (H : extract_prosodic_features Variants.long_tone "tone.wav" = (Some _, ""))
    by (vm_compute; reflexivity).
  destruct (contours_are_prefixes Variants.long_tone "tone.wav" Variants.long_tone_run _
              long_tone_returns H) as (pc & ec & Hp & He & Hpc & Hec & _).
  split; [exact H|].
  split; [vm_compute; reflexivity|]. split; [vm_compute; reflexivity|].
  split; [rewrite Hp, Hpc; vm_compute; reflexivity|].
  split; [rewrite He, Hec; vm_compute; reflexivity|].
  split; vm_compute; reflexivity.
Defined.

(** ** Voice quality *)

(** C4: the formants of a successful extraction are the three fixed pairs
    700/50, 1200/70 and 2500/100, whatever the audio. *)
Theorem formants_are_fixed (L : Librosa) (audio_path : string) (d : pyval) :
  extract_prosodic_features L audio_path = (Some d, "") ->
  field "voice_quality" "formants" d =
    Some (PyList
      [ PyDict [("frequency", PyFloat (Fl.lit 700)); ("bandwidth", PyFloat (Fl.lit 50))];
        PyDict [("frequency", PyFloat (Fl.lit 1200)); ("bandwidth", PyFloat (Fl.lit 70))];
        PyDict [("frequency", PyFloat (Fl.lit 2500)); ("bandwidth", PyFloat (Fl.lit 100))] ]).
Proof.
  intros H. destruct (extract_some _ _ _ _ H) as (Hf & _).
  destruct (features_ok_returns _ _ _ Hf) as (r & Hr). sections Hr H. reflexivity.
Qed.

Lemma formants_are_fixed_witness :
  exists d,
    extract_prosodic_features Examples.voiced "speech.wav" = (Some d, "") /\
    field "voice_quality" "formants" d =
      Some (PyList
        [ PyDict [("frequency", PyFloat (Fl.lit 700)); ("bandwidth", PyFloat (Fl.lit 50))];
          PyDict [("frequency", PyFloat (Fl.lit 1200)); ("bandwidth", PyFloat (Fl.lit 70))];
          PyDict [("frequency", PyFloat (Fl.lit 2500)); ("bandwidth", PyFloat (Fl.lit 100))] ]).
Proof.
  eexists. split; [vm_compute; reflexivity|].
  apply (formants_are_fixed Examples.voiced "speech.wav").
  vm_compute. reflexivity.
Defined.

(** C3, as the script computes it: jitter is the standard deviation of the
    successive differences of the voiced pitch values divided by the mean of
    the voiced pitch values themselves (0.01 with fewer than two voiced
    frames), and shimmer is the standard deviation of the successive
    differences of the RMS amplitudes divided by the mean of the RMS
    amplitudes themselves. *)
Theorem jitter_shimmer_relative_to_mean_level
    (L : Librosa) (audio_path : string) (r : run) (d : pyval) :
  returns L audio_path r ->
  extract_prosodic_features L audio_path = (Some d, "") ->
  let v := voiced_values r in
  field "voice_quality" "jitter" d =
    Some (PyFloat (if Nat.ltb (List.length v) 2 then Fl.lit_0_01
                   else Fl.div b64 (np.std b64 (np.diff b64 v)) (np.mean b64 v))) /\
  field "voice_quality" "shimmer" d =
    Some (PyFloat (Fl.cast b64
      (Fl.div b32 (np.std b32 (np.diff b32 (rms r))) (np.mean b32 (rms r))))).
Proof.
  intros Hr H v. sections Hr H. fold v. split; [|reflexivity].
  cbn [field get assoc voice_quality_section String.eqb Ascii.eqb Bool.eqb].
  destruct v as [|a [|b v']]; reflexivity.
Qed.

Lemma jitter_shimmer_relative_to_mean_level_witness :
  exists d,
    extract_prosodic_features Examples.voiced "speech.wav" = (Some d, "") /\
    field "voice_quality" "jitter" d =
      Some (PyFloat (Fl.div b64 (Fl.lit 50)
                       (np.mean b64 [Fl.lit 100; Fl.lit 200; Fl.lit 400]))) /\
    field "voice_quality" "shimmer" d =
      Some (PyFloat (Fl.cast b64
        (Fl.div b32
           (np.std b32 [Examples.scaled b32 1 (-2); Fl.of_Z b32 0; Examples.scaled b32 1 (-1)])
           (Examples.scaled b32 9 (-4))))).
Proof.
  eexists. split; [vm_compute; reflexivity|].
  apply (jitter_shimmer_relative_to_mean_level
           Examples.voiced "speech.wav" Examples.voiced_run _ voiced_returns).
  vm_compute. reflexivity.
Defined.

(** C3 as stated fails: on the voiced stand-in (pitch 100, 200, 400 Hz) the
    jitter of the script is 50 / 233.3 = 0.214, below the coefficient of
    variation 50 / 150 = 0.333 of the differences 100 and 200; and its shimmer
    0.363 is below the coefficient of variation 0.816 of the amplitude
    differences. *)
Lemma jitter_is_not_cv_of_differences :
  exists d jitter shimmer,
    extract_prosodic_features Examples.voiced "speech.wav" = (Some d, "") /\
    field "voice_quality" "jitter" d = Some (PyFloat jitter) /\
    field "voice_quality" "shimmer" d = Some (PyFloat shimmer) /\
    Fl.ltb jitter (cv_jitter (voiced_values Examples.voiced_run)) = true /\
    Fl.ltb shimmer (cv_shimmer (rms Examples.voiced_run)) = true.
Proof.
  eexists _, _, _. repeat split; vm_compute; reflexivity.
Qed.

(** ** Timing *)

Lemma wrap_int64_small (n : Z) : - 2 ^ 63 <= n < 2 ^ 63 -> np.wrap_int64 n = n.
Proof.
  intros H. unfold np.wrap_int64.
  rewrite Z.mod_small; lia.
Qed.

Lemma diff_int_no_overflow (a : list Z) :
  Forall (fun b => 0 <= b < 2 ^ 63) a ->
  np.diff_int a = successive_differences a.
Proof.
  unfold successive_differences.
  induction a as [|x [|y tl] IH]; intros H; try reflexivity.
  inversion H as [|? ? Hx Htl]; subst. inversion Htl as [|? ? Hy _]; subst.
  change (np.wrap_int64 (y - x) :: np.diff_int (y :: tl)
          = (y - x) :: map (fun p => snd p - fst p) (combine (y :: tl) (List.tl (y :: tl)))).
  rewrite (IH Htl), wrap_int64_small by lia. reflexivity.
Qed.

(** C8: the speaking rate is the float64 product of the tempo of the beat
    tracker and 2, and the rhythm score is the standard deviation of the
    intervals between successive beats, the square root of the mean of their
    squared deviations from their mean, divided by that mean; sums are taken
    in numpy's order. *)
Theorem timing_from_tempo_and_beats
    (L : Librosa) (audio_path : string) (r : run) (d : pyval) :
  returns L audio_path r -> beat_frames r ->
  extract_prosodic_features L audio_path = (Some d, "") ->
  let intervals := inter_beat_intervals r in
  let n := Fl.of_Z Fl.binary64 (Z.of_nat (List.length intervals)) in
  let mean := Fl.div Fl.binary64 (np.sum Fl.binary64 intervals) n in
  let deviations := map (fun x => Fl.sub Fl.binary64 x mean) intervals in
  let squares := map (fun x => Fl.mul Fl.binary64 x x) deviations in
  let variance := Fl.div Fl.binary64 (np.sum Fl.binary64 squares) n in
  field "timing" "speaking_rate" d =
    Some (PyFloat (Fl.mul Fl.binary64 (tempo r) (Fl.of_Z Fl.binary64 2))) /\
  field "timing" "rhythm_score" d =
    Some (PyFloat (Fl.div Fl.binary64 (Fl.sqrt Fl.binary64 variance) mean)).
Proof.
  intros Hr Hb H. sections Hr H. cbn zeta. split; [reflexivity|].
  cbn [field get assoc timing_section String.eqb Ascii.eqb Bool.eqb].
  unfold inter_beat_intervals. rewrite <- (diff_int_no_overflow _ Hb). reflexivity.
Qed.

Lemma timing_from_tempo_and_beats_witness :
  exists d,
    extract_prosodic_features Examples.voiced "speech.wav" = (Some d, "") /\
    tempo Examples.voiced_run = S754_finite false 8444249301319680 (-46) /\
    beats Examples.voiced_run = [0; 1; 3] /\
    field "timing" "speaking_rate" d =
      Some (PyFloat (S754_finite false 8444249301319680 (-45))) /\
    field "timing" "rhythm_score" d =
      Some (PyFloat (S754_finite false 6004799503160661 (-54))).
Proof.
  eexists.
  assert (H : extract_prosodic_features Examples.voiced "speech.wav" = (Some _, ""))
    by (vm_compute; reflexivity).
  assert (Hb : beat_frames Examples.voiced_run)
    by (repeat constructor; vm_compute; congruence).
  destruct (timing_from_tempo_and_beats
              Examples.voiced "speech.wav" Examples.voiced_run _ voiced_returns Hb H)
    as (Hrate & Hscore).
  split; [exact H|].
  split; [vm_compute; reflexivity|]. split; [reflexivity|].
  split; [rewrite Hrate | rewrite Hscore]; vm_compute; reflexivity.
Defined.

(** C10: the pause patterns of a successful extraction are the empty list. *)
Theorem pause_patterns_empty (L : Librosa) (audio_path : string) (d : pyval) :
  extract_prosodic_features L audio_path = (Some d, "") ->
  field "timing" "pause_patterns" d = Some (PyList []).
Proof.
  intros H. destruct (extract_some _ _ _ _ H) as (Hf & _).
  destruct (features_ok_returns _ _ _ Hf) as (r & Hr). sections Hr H. reflexivity.
Qed.

Lemma pause_patterns_empty_witness :
  exists d,
    extract_prosodic_features Examples.voiced "speech.wav" = (Some d, "") /\
    field "timing" "pause_patterns" d = Some (PyList []).
Proof.
  eexists. split; [vm_compute; reflexivity|].
  apply (pause_patterns_empty Examples.voiced "speech.wav").
  vm_compute. reflexivity.
Defined.

(** ** Undefined statistics *)

(** X1: with fewer than two beats there is no interval between beats, and
    the rhythm score is the quotient of two undefined statistics: NaN. *)
Theorem rhythm_score_undefined
    (L : Librosa) (audio_path : string) (r : run) (d : pyval) :
  returns L audio_path r ->
  extract_prosodic_features L audio_path = (Some d, "") ->
  (List.length (beats r) < 2)%nat ->
  field "timing" "rhythm_score" d = Some (PyFloat S754_nan).
Proof.
  intros Hr H Hlen. sections Hr H.
  destruct (beats r) as [|b0 [|b1 tl]]; [reflexivity | reflexivity | simpl in Hlen; lia].
Qed.

Lemma rhythm_score_undefined_witness :
  exists d,
    extract_prosodic_features Examples.silence "silence.wav" = (Some d, "") /\
    field "timing" "rhythm_score" d = Some (PyFloat S754_nan).
Proof.
  eexists. split; [vm_compute; reflexivity|].
  apply (rhythm_score_undefined Examples.silence "silence.wav" Examples.silence_run _
           silence_returns).
  - vm_compute. reflexivity.
  - vm_compute. lia.
Defined.

(** C1 on one second of digital silence: the extraction succeeds, and its
    shimmer (0.0 / 0.0) and rhythm score (no beat) are NaN, so the record is
    not made of finite numbers. *)
Theorem silence_yields_nan :
  exists d,
    extract_prosodic_features Examples.silence "silence.wav" = (Some d, "") /\
    field "voice_quality" "shimmer" d = Some (PyFloat S754_nan) /\
    field "timing" "rhythm_score" d = Some (PyFloat S754_nan) /\
    all_finite d = false.
Proof.
  eexists. split; [vm_compute; reflexivity|]. repeat split; vm_compute; reflexivity.
Qed.

(** ** The command line *)

Lemma main_of_failure
    (L : Librosa) (float_repr : float -> string) (prog audio_path : string) (e : exn) :
  features L audio_path = Raise e ->
  main L float_repr [prog; audio_path] =
    {| stdout := "";
       stderr := warnings L audio_path ++ "Error processing audio: " ++ exn_str e ++ nl;
       status := 1 |}.
Proof.
  intros H. unfold main, extract_prosodic_features. simpl. rewrite H. reflexivity.
Qed.

(** C6: with an argument count other than one the run prints the usage
    message, Usage: python voice_emotion_analysis.py <audio_file>, and a
    newline to the error stream and exits with status 1; with a path that
    cannot be decoded, and on any other exception of the extraction, the
    error stream ends, after whatever the libraries have warned of, with the
    line Error processing audio: and the message of the exception, and the
    run exits with status 1; in each case nothing is written to standard
    output. *)
Theorem failures_leave_stdout_empty (L : Librosa) (float_repr : float -> string) :
  (forall argv, List.length argv <> 2%nat ->
     main L float_repr argv =
       {| stdout := "";
          stderr := "Usage: python voice_emotion_analysis.py <audio_file>"
                    ++ String "010"%char "";
          status := 1 |}) /\
  (forall prog audio_path e, load L audio_path = Raise e ->
     main L float_repr [prog; audio_path] =
       {| stdout := "";
          stderr := warnings L audio_path
                    ++ "Error processing audio: " ++ exn_str e ++ String "010"%char "";
          status := 1 |}) /\
  (forall prog audio_path e, features L audio_path = Raise e ->
     main L float_repr [prog; audio_path] =
       {| stdout := "";
          stderr := warnings L audio_path
                    ++ "Error processing audio: " ++ exn_str e ++ String "010"%char "";
          status := 1 |}).
Proof.
  split; [|split].
  - intros argv Hn. unfold main.
    destruct (Nat.eqb (List.length argv) 2) eqn:E; [apply Nat.eqb_eq in E; contradiction|].
    reflexivity.
  - intros prog audio_path e Hload. apply main_of_failure.
    unfold features. rewrite Hload. reflexivity.
  - intros prog audio_path e. apply main_of_failure.
Qed.

Lemma failures_leave_stdout_empty_witness :
  main Examples.voiced (fun _ => "0.0") ["voice_emotion_analysis.py"] =
    {| stdout := "";
       stderr := "Usage: python voice_emotion_analysis.py <audio_file>"
                 ++ String "010"%char "";
       status := 1 |} /\
  main Examples.voiced (fun _ => "0.0")
       ["voice_emotion_analysis.py"; "speech.wav"; "other.wav"] =
    {| stdout := "";
       stderr := "Usage: python voice_emotion_analysis.py <audio_file>"
                 ++ String "010"%char "";
       status := 1 |} /\
  main Examples.voiced (fun _ => "0.0") ["voice_emotion_analysis.py"; "missing.wav"] =
    {| stdout := "";
       stderr :=
         "voice_emotion_analysis.py:19: UserWarning: PySoundFile failed. "
         ++ "Trying audioread instead." ++ String "010"%char ""
         ++ "  y, sr = librosa.load(audio_path, sr=None)" ++ String "010"%char ""
         ++ "Error processing audio: [Errno 2] No such file or directory: 'missing.wav'"
         ++ String "010"%char "";
       status := 1 |} /\
  main Variants.voiced_strict (fun _ => "0.0") ["voice_emotion_analysis.py"; "speech.wav"] =
    {| stdout := "";
       stderr :=
         "Error processing audio: only 0-dimensional arrays can be converted to Python scalars"
         ++ String "010"%char "";
       status := 1 |}.
Proof.
  pose proof (failures_leave_stdout_empty Examples.voiced (fun _ => "0.0"))
    as (Hn & Hload & _).
  pose proof (failures_leave_stdout_empty Variants.voiced_strict (fun _ => "0.0"))
    as (_ & _ & Hany).
  split; [|split; [|split]].
  - apply Hn. simpl. lia.
  - apply Hn. simpl. lia.
  - apply (Hload "voice_emotion_analysis.py" "missing.wav"
             (Exn "FileNotFoundError" "[Errno 2] No such file or directory: 'missing.wav'")).
    reflexivity.
  - apply (Hany "voice_emotion_analysis.py" "speech.wav"
             (Exn "TypeError"
                "only 0-dimensional arrays can be converted to Python scalars")).
    vm_compute. reflexivity.
Defined.

(** ** Printing and reading back *)

Section ReadingBack.

#[local] Arguments Ascii.eqb : simpl never.
#[local] Arguments json.is_digit : simpl never.

Lemma append_assoc (a b c : string) : (a ++ b) ++ c = a ++ (b ++ c).
Proof. induction a as [|x a IH]; simpl; [reflexivity | rewrite IH; reflexivity]. Qed.

Lemma length_append (a b : string) :
  String.length (a ++ b) = (String.length a + String.length b)%nat.
Proof. induction a as [|x a IH]; simpl; [reflexivity | rewrite IH; reflexivity]. Qed.

Lemma skip_ws_spaces (n : nat) (s : string) :
  json.skip_ws (json.spaces n ++ s) = json.skip_ws s.
Proof. induction n as [|n IH]; simpl; [reflexivity | exact IH]. Qed.

Lemma skip_ws_newline_indent (indent level : nat) (s : string) :
  json.skip_ws (json.newline_indent indent level ++ s) = json.skip_ws s.
Proof.
  unfold json.newline_indent, nl. simpl. apply skip_ws_spaces.
Qed.

(** *** String literals *)

Lemma scanstring_escape_char (c : ascii) (s : string) :
  json.scanstring (json.escape_char c ++ s) = json.push c (json.scanstring s).
Proof.
  destruct c as [[|] [|] [|] [|] [|] [|] [|] [|]]; reflexivity.
Qed.

Lemma scanstring_escape (s rest : string) :
  json.scanstring (json.escape s ++ String json.quote rest) = Some (s, rest).
Proof.
  induction s as [|c s IH]; [reflexivity|].
  simpl json.escape. rewrite append_assoc, scanstring_escape_char, IH. reflexivity.
Qed.

(** *** Number literals *)

Lemma delimiter_ends_number (c : ascii) (r : string) :
  json.delimited (String c r) -> json.ends_number c.
Proof.
  intros [-> | ->]; repeat split; reflexivity.
Qed.

Lemma span_digits_app (s rest : string) :
  match rest with String c _ => json.is_digit c = false | EmptyString => True end ->
  json.span_digits (s ++ rest) =
    (fst (json.span_digits s), snd (json.span_digits s) ++ rest).
Proof.
  intros Hrest. induction s as [|c s IH]; simpl.
  - destruct rest as [|c r]; [reflexivity|]. simpl. rewrite Hrest. reflexivity.
  - destruct (json.is_digit c); [|reflexivity].
    rewrite IH. destruct (json.span_digits s) as [d r]. reflexivity.
Qed.

Lemma span_digits_delimited (s rest : string) :
  json.delimited rest ->
  json.span_digits (s ++ rest) =
    (fst (json.span_digits s), snd (json.span_digits s) ++ rest).
Proof.
  intros H. apply span_digits_app. destruct rest as [|c r]; [exact I|].
  apply (delimiter_ends_number c r H).
Qed.

Lemma match_magnitude_app (sign s rest i r : string) :
  json.delimited rest ->
  json.match_magnitude sign s = Some (i, r) ->
  json.match_magnitude sign (s ++ rest) = Some (i, r ++ rest).
Proof.
  intros Hd. destruct s as [|c r0]; [discriminate|]. simpl.
  destruct (Ascii.eqb c "0"); [intros H; inversion H; reflexivity|].
  destruct (json.is_digit c); [|discriminate].
  rewrite (span_digits_delimited r0 rest Hd).
  destruct (json.span_digits r0) as [d r1]. simpl.
  intros H; inversion H; reflexivity.
Qed.

Lemma match_integer_app (s rest i r : string) :
  json.delimited rest ->
  json.match_integer s = Some (i, r) ->
  json.match_integer (s ++ rest) = Some (i, r ++ rest).
Proof.
  intros Hd. destruct s as [|c s]; [discriminate|]. simpl.
  destruct (Ascii.eqb c "-"); [apply match_magnitude_app, Hd|].
  apply (match_magnitude_app "" (String c s) rest i r Hd).
Qed.

Lemma match_frac_app (s rest : string) :
  json.delimited rest ->
  json.match_frac (s ++ rest) =
    (fst (json.match_frac s), snd (json.match_frac s) ++ rest).
Proof.
  intros Hd. unfold json.match_frac. destruct s as [|c s]; cbn [append].
  - destruct rest as [|c r]; [reflexivity|].
    destruct (delimiter_ends_number c r Hd) as (_ & -> & _). reflexivity.
  - destruct (Ascii.eqb c "."); [|reflexivity].
    rewrite (span_digits_delimited s rest Hd).
    destruct (json.span_digits s) as [d r]. cbn [fst snd].
    destruct (json.is_empty d); reflexivity.
Qed.

Lemma match_exp_app (s rest : string) :
  json.delimited rest ->
  json.match_exp (s ++ rest) =
    (fst (json.match_exp s), snd (json.match_exp s) ++ rest).
Proof.
  intros Hd. unfold json.match_exp. destruct s as [|c s]; cbn [append].
  - destruct rest as [|c r]; [reflexivity|].
    destruct (delimiter_ends_number c r Hd) as (_ & _ & -> & _). reflexivity.
  - destruct (Ascii.eqb c "e" || Ascii.eqb c "E"); [|reflexivity].
    destruct s as [|c' s']; cbn [append].
    + destruct rest as [|d r]; [reflexivity|].
      destruct (delimiter_ends_number d r Hd) as (Hdig & _ & _ & -> & _).
      cbn [json.span_digits]. rewrite Hdig. reflexivity.
    + destruct (Ascii.eqb c' "+" || Ascii.eqb c' "-").
      * rewrite (span_digits_delimited s' rest Hd).
        destruct (json.span_digits s') as [d r]. cbn [fst snd].
        destruct (json.is_empty d); reflexivity.
      * change (String c' (s' ++ rest)) with (String c' s' ++ rest).
        rewrite (span_digits_delimited (String c' s') rest Hd).
        destruct (json.span_digits (String c' s')) as [d r]. cbn [fst snd].
        destruct (json.is_empty d); reflexivity.
Qed.

Lemma match_number_app (s rest lexeme r : string) (b : bool) :
  json.delimited rest ->
  json.match_number s = Some (lexeme, b, r) ->
  json.match_number (s ++ rest) = Some (lexeme, b, r ++ rest).
Proof.
  intros Hd. unfold json.match_number.
  destruct (json.match_integer s) as [[i r0]|] eqn:Hi; [|discriminate].
  rewrite (match_integer_app s rest i r0 Hd Hi).
  rewrite (match_frac_app r0 rest Hd).
  destruct (json.match_frac r0) as [f r1]. simpl.
  rewrite (match_exp_app r1 rest Hd).
  destruct (json.match_exp r1) as [e r2]. simpl.
  intros H; inversion H; reflexivity.
Qed.

Lemma float_literal_app (s rest : string) :
  json.delimited rest ->
  json.is_float_literal s = true ->
  json.match_number (s ++ rest) = Some (s, true, rest).
Proof.
  intros Hd. unfold json.is_float_literal.
  destruct (json.match_number s) as [[[lexeme b] r]|] eqn:Hm; [|discriminate].
  destruct b; [|discriminate]. destruct r; [|discriminate].
  intros He. apply String.eqb_eq in He. subst lexeme.
  exact (match_number_app s rest s "" true Hd Hm).
Qed.

(** A number literal starts with a digit or a minus sign. *)
Lemma float_literal_head (s : string) :
  json.is_float_literal s = true ->
  exists c r, s = String c r /\ (json.is_digit c = true \/ c = "-"%char).
Proof.
  unfold json.is_float_literal, json.match_number, json.match_integer.
  destruct s as [|c r]; [discriminate|]. intros H. exists c, r. split; [reflexivity|].
  destruct (Ascii.eqb_spec c "-") as [->|Hc]; [right; reflexivity|]. left.
  unfold json.match_magnitude in H.
  destruct (Ascii.eqb_spec c "0") as [->|Hc0]; [reflexivity|].
  destruct (json.is_digit c); [reflexivity | discriminate].
Qed.

(** *** Dictionaries *)

Lemma distinct_NoDup (l : list string) : json.distinct l = true -> NoDup l.
Proof.
  induction l as [|k l IH]; simpl; intros H; constructor.
  - apply andb_prop in H as (H & _). intros Hin.
    apply negb_true_iff in H.
    assert (existsb (String.eqb k) l = true)
      by (apply existsb_exists; exists k; split; [exact Hin | apply String.eqb_refl]).
    congruence.
  - apply IH. apply andb_prop in H as (_ & H). exact H.
Qed.

Lemma dict_set_fresh (k : string) (v : pyval) (d : list (string * pyval)) :
  ~ In k (map fst d) -> json.dict_set k v d = (d ++ [(k, v)])%list.
Proof.
  induction d as [|[k' v'] d IH]; simpl; intros H; [reflexivity|].
  destruct (String.eqb_spec k k') as [->|Hne]; [exfalso; apply H; left; reflexivity|].
  rewrite IH; [reflexivity|]. intros Hin. apply H. right. exact Hin.
Qed.

Lemma fold_dict_set (d acc : list (string * pyval)) :
  NoDup (map fst (acc ++ d)%list) ->
  fold_left (fun d kv => json.dict_set (fst kv) (snd kv) d) d acc = (acc ++ d)%list.
Proof.
  revert acc. induction d as [|[k v] d IH]; intros acc H; simpl.
  - rewrite app_nil_r. reflexivity.
  - rewrite dict_set_fresh.
    + rewrite IH; rewrite <- app_assoc; [reflexivity | exact H].
    + rewrite map_app in H. simpl in H. apply NoDup_remove_2 in H.
      intros Hin. apply H. apply in_or_app. left. exact Hin.
Qed.

Lemma dict_of_pairs_distinct (d : list (string * pyval)) :
  json.distinct (map fst d) = true -> json.dict_of_pairs d = d.
Proof.
  intros H. unfold json.dict_of_pairs. apply (fold_dict_set d []).
  apply distinct_NoDup, H.
Qed.

Lemma digit_opens_value (c : ascii) :
  json.is_digit c = true \/ c = "-"%char -> json.opens_value c.
Proof.
  intros [H | ->]; [|repeat split; reflexivity].
  destruct c as [[|] [|] [|] [|] [|] [|] [|] [|]];
    try discriminate H; repeat split; reflexivity.
Qed.

Section RoundTrip.
Variable float_of_str : string -> float.
Variable float_repr : float -> string.
Variable indent : nat.

#[local] Notation encode := (json.encode float_repr indent).
#[local] Notation reread := (json.reread float_of_str float_repr).
#[local] Notation scan_once := (json.scan_once float_of_str).
#[local] Notation array_items := (json.array_items float_of_str).
#[local] Notation object_members := (json.object_members float_of_str).
#[local] Notation reads_back := (json.round_trips float_of_str float_repr indent).
#[local] Notation newline_indent := (json.newline_indent indent).

Lemma encode_list (level : nat) (x : pyval) (xs : list pyval) :
  encode level (PyList (x :: xs)) =
    "[" ++ newline_indent (S level) ++ encode (S level) x
    ++ json.encode_items float_repr indent level xs ++ newline_indent level ++ "]".
Proof. reflexivity. Qed.

Lemma encode_dict (level : nat) (k : string) (x : pyval) (xs : list (string * pyval)) :
  encode level (PyDict ((k, x) :: xs)) =
    "{" ++ newline_indent (S level) ++ json.encode_str k ++ ": " ++ encode (S level) x
    ++ json.encode_members float_repr indent level xs ++ newline_indent level ++ "}".
Proof. reflexivity. Qed.

(** A number is read back from its text. *)
Lemma scan_number_floatstr (x : float) (rest : string) :
  json.literals float_repr (PyFloat x) = true ->
  json.delimited rest ->
  json.scan_number float_of_str (json.floatstr float_repr x ++ rest) =
    Some (reread (PyFloat x), rest).
Proof.
  intros Hl Hd. unfold json.scan_number.
  destruct x as [s | [|] | | s m e]; simpl in Hl |- *; try reflexivity;
    rewrite (float_literal_app _ rest Hd Hl); reflexivity.
Qed.

Lemma floatstr_head (x : float) :
  json.literals float_repr (PyFloat x) = true ->
  exists c r, json.floatstr float_repr x = String c r /\ json.opens_value c.
Proof.
  intros Hl.
  assert (Hfin : forall s, json.is_float_literal s = true ->
            exists c r, s = String c r /\ json.opens_value c).
  { intros s Hs. destruct (float_literal_head s Hs) as (c & r & -> & Hc).
    exists c, r. split; [reflexivity | apply digit_opens_value, Hc]. }
  destruct x as [s | [|] | | s m e]; simpl in Hl |- *;
    try (apply Hfin, Hl); eexists _, _; (split; [reflexivity | repeat split; reflexivity]).
Qed.

Lemma encode_head (level : nat) (v : pyval) :
  json.literals float_repr v = true ->
  exists c r, encode level v = String c r /\
    json.is_ws c = false /\ Ascii.eqb c "]" = false /\ Ascii.eqb c "}" = false.
Proof.
  intros Hl. destruct v as [x | [|x xs] | [|[k x] xs]].
  - destruct (floatstr_head x Hl) as (c & r & H & Hc & H1 & H2 & _).
    exists c, r. auto.
  - eexists _, _. split; [reflexivity | repeat split; reflexivity].
  - eexists _, _. split; [reflexivity | repeat split; reflexivity].
  - eexists _, _. split; [reflexivity | repeat split; reflexivity].
  - eexists _, _. split; [reflexivity | repeat split; reflexivity].
Qed.

Lemma skip_ws_encode (level : nat) (v : pyval) (rest : string) :
  json.literals float_repr v = true ->
  json.skip_ws (encode level v ++ rest) = encode level v ++ rest.
Proof.
  intros Hl. destruct (encode_head level v Hl) as (c & r & -> & Hws & _).
  simpl. rewrite Hws. reflexivity.
Qed.

(** A float is read by the number scanner. *)
Lemma scan_once_float (fuel : nat) (x : float) (rest : string) :
  json.literals float_repr (PyFloat x) = true ->
  json.delimited rest ->
  scan_once (S fuel) (json.floatstr float_repr x ++ rest) = Some (reread (PyFloat x), rest).
Proof.
  intros Hl Hd. rewrite <- (scan_number_floatstr x rest Hl Hd).
  destruct (floatstr_head x Hl) as (c & r & -> & _ & _ & _ & H1 & H2).
  cbn [append json.scan_once]. rewrite H1, H2. reflexivity.
Qed.

Lemma delimited_comma (s : string) : json.delimited (String "," s).
Proof. left. reflexivity. Qed.

Lemma delimited_newline_indent (level : nat) (s : string) :
  json.delimited (newline_indent level ++ s).
Proof. right. reflexivity. Qed.

Lemma array_items_encode (level : nat) (xs : list pyval) :
  Forall reads_back xs ->
  forallb json.well_formed xs = true -> forallb (json.literals float_repr) xs = true ->
  forall x fuel rest,
    reads_back x -> json.well_formed x = true -> json.literals float_repr x = true ->
    (json.cost_items (x :: xs) <= fuel)%nat ->
    array_items fuel
      (encode (S level) x ++ json.encode_items float_repr indent level xs
       ++ newline_indent level ++ String "]" rest)
    = Some (map reread (x :: xs), rest).
Proof.
  induction 1 as [|y ys Hy Hys IH]; intros Hw Hl x fuel rest Hx Hwx Hlx Hfuel;
    (destruct fuel as [|n]; [simpl in Hfuel; lia|]); cbn [json.array_items].
  - rewrite (Hx Hwx Hlx (S level) n);
      [|simpl in Hfuel; lia | apply delimited_newline_indent].
    cbn [json.encode_items append]. rewrite skip_ws_newline_indent. reflexivity.
  - simpl in Hw, Hl. apply andb_prop in Hw as (Hwy & Hw). apply andb_prop in Hl as (Hly & Hl).
    rewrite (Hx Hwx Hlx (S level) n); [|simpl in Hfuel; lia | apply delimited_comma].
    cbn [json.encode_items append json.skip_ws].
    change (json.is_ws ",") with false. cbn iota.
    change (Ascii.eqb "," "]") with false. change (Ascii.eqb "," ",") with true. cbn iota.
    rewrite !append_assoc, skip_ws_newline_indent.
    rewrite (skip_ws_encode (S level) y _ Hly).
    rewrite (IH Hw Hl y n rest Hy Hwy Hly); [reflexivity|].
    simpl in Hfuel |- *. lia.
Qed.

Lemma encode_str_app (k s : string) :
  json.encode_str k ++ s = String json.quote (json.escape k ++ String json.quote s).
Proof. unfold json.encode_str. cbn [append]. rewrite append_assoc. reflexivity. Qed.

Lemma object_members_encode (level : nat) (xs : list (string * pyval)) :
  Forall (fun kv => reads_back (snd kv)) xs ->
  forallb (fun kv => json.well_formed (snd kv)) xs = true ->
  forallb (fun kv => json.literals float_repr (snd kv)) xs = true ->
  forall k x fuel rest,
    reads_back x -> json.well_formed x = true -> json.literals float_repr x = true ->
    (json.cost_members ((k, x) :: xs) <= fuel)%nat ->
    object_members fuel
      (json.encode_str k ++ String ":" (String " " (encode (S level) x
       ++ json.encode_members float_repr indent level xs
       ++ newline_indent level ++ String "}" rest)))
    = Some (map (fun kv => (fst kv, reread (snd kv))) ((k, x) :: xs), rest).
Proof.
  induction 1 as [|[k' y] ys Hy Hys IH]; intros Hw Hl k x fuel rest Hx Hwx Hlx Hfuel;
    (destruct fuel as [|n]; [simpl in Hfuel; lia|]);
    rewrite encode_str_app; cbn [json.object_members];
    change (Ascii.eqb json.quote json.quote) with true; cbn iota;
    rewrite scanstring_escape; cbn [append json.skip_ws];
    change (json.is_ws ":") with false; cbn iota;
    change (Ascii.eqb ":" ":") with true; cbn iota; cbn [json.skip_ws];
    change (json.is_ws " ") with true; cbn iota;
    rewrite (skip_ws_encode (S level) x _ Hlx).
  - rewrite (Hx Hwx Hlx (S level) n);
      [|simpl in Hfuel; lia | apply delimited_newline_indent].
    cbn [json.encode_members append]. rewrite skip_ws_newline_indent. reflexivity.
  - simpl in Hw, Hl, Hy. apply andb_prop in Hw as (Hwy & Hw).
    apply andb_prop in Hl as (Hly & Hl).
    rewrite (Hx Hwx Hlx (S level) n); [|simpl in Hfuel; lia | apply delimited_comma].
    cbn [json.encode_members append json.skip_ws].
    change (json.is_ws ",") with false. cbn iota.
    change (Ascii.eqb "," "}") with false. change (Ascii.eqb "," ",") with true. cbn iota.
    rewrite !append_assoc, skip_ws_newline_indent. cbn [append]. rewrite !append_assoc.
    change (json.skip_ws (json.encode_str k' ++ ?s)) with (json.encode_str k' ++ s).
    rewrite (IH Hw Hl k' y n rest Hy Hwy Hly); [reflexivity|].
    simpl in Hfuel |- *. lia.
Qed.

Lemma scan_once_open_array (n : nat) (text s : string) :
  json.skip_ws text = s ->
  (exists c r, s = String c r /\ Ascii.eqb c "]" = false) ->
  scan_once (S n) (String "[" text) =
    match array_items n s with
    | Some (l, rest) => Some (PyList l, rest)
    | None => None
    end.
Proof.
  intros Hskip (c & r & -> & Hc). cbn [json.scan_once].
  change (Ascii.eqb "[" "[") with true. cbn iota. rewrite Hskip, Hc. reflexivity.
Qed.

Lemma scan_once_open_object (n : nat) (text s : string) :
  json.skip_ws text = s ->
  (exists c r, s = String c r /\ Ascii.eqb c "}" = false) ->
  scan_once (S n) (String "{" text) =
    match object_members n s with
    | Some (pairs, rest) => Some (PyDict (json.dict_of_pairs pairs), rest)
    | None => None
    end.
Proof.
  intros Hskip (c & r & -> & Hc). cbn [json.scan_once].
  change (Ascii.eqb "{" "[") with false. change (Ascii.eqb "{" "{") with true.
  cbn iota. rewrite Hskip, Hc. reflexivity.
Qed.

(** Any printed value is read back, from any nesting level and before any
    delimiter, with fuel for the values it holds. *)
Theorem scan_once_encode (v : pyval) : reads_back v.
Proof.
  induction v as [x | l IH | d IH] using pyval_induction;
    intros Hw Hl level fuel rest Hfuel Hd;
    (destruct fuel as [|n]; [simpl in Hfuel; lia|]).
  - apply scan_once_float; assumption.
  - destruct l as [|x xs]; [reflexivity|].
    inversion IH as [|? ? Hx Hxs]; subst.
    simpl in Hw, Hl. apply andb_prop in Hw as (Hwx & Hw). apply andb_prop in Hl as (Hlx & Hl).
    rewrite encode_list. cbn [append]. rewrite !append_assoc.
    rewrite (scan_once_open_array n _
               (encode (S level) x ++ json.encode_items float_repr indent level xs
                ++ newline_indent level ++ String "]" rest)).
    + rewrite (array_items_encode level xs Hxs Hw Hl x n rest Hx Hwx Hlx); [reflexivity|].
      simpl in Hfuel. unfold json.cost_items. simpl. lia.
    + rewrite skip_ws_newline_indent. apply skip_ws_encode, Hlx.
    + destruct (encode_head (S level) x Hlx) as (c & r & -> & _ & Hc & _).
      eexists _, _. split; [reflexivity | exact Hc].
  - destruct d as [|[k x] xs]; [reflexivity|].
    inversion IH as [|? ? Hx Hxs]; subst.
    simpl in Hw, Hl. apply andb_prop in Hw as (Hdist & Hw).
    apply andb_prop in Hw as (Hwx & Hw). apply andb_prop in Hl as (Hlx & Hl).
    rewrite encode_dict. cbn [append]. rewrite !append_assoc. cbn [append].
    rewrite !append_assoc.
    rewrite (scan_once_open_object n _
               (json.encode_str k ++ String ":" (String " " (encode (S level) x
                ++ json.encode_members float_repr indent level xs
                ++ newline_indent level ++ String "}" rest)))).
    + rewrite (object_members_encode level xs Hxs Hw Hl k x n rest Hx Hwx Hlx);
        [|simpl in Hfuel; unfold json.cost_members; simpl; lia].
      rewrite dict_of_pairs_distinct; [reflexivity|].
      simpl. rewrite map_map. simpl. exact Hdist.
    + rewrite skip_ws_newline_indent. reflexivity.
    + eexists _, _. split; [reflexivity | reflexivity].
Qed.

(** *** Fuel *)

Lemma newline_indent_length (level : nat) :
  (1 <= String.length (newline_indent level))%nat.
Proof. unfold json.newline_indent, nl. simpl. lia. Qed.

Lemma cost_le_length (v : pyval) :
  json.literals float_repr v = true ->
  forall level, (json.cost v <= String.length (encode level v))%nat.
Proof.
  induction v as [x | l IH | d IH] using pyval_induction; intros Hl level.
  - destruct (floatstr_head x Hl) as (c & r & H & _). simpl. rewrite H. simpl. lia.
  - destruct l as [|x xs]; [simpl; lia|].
    inversion IH as [|? ? Hx Hxs]; subst.
    simpl in Hl. apply andb_prop in Hl as (Hlx & Hl).
    rewrite encode_list. cbn [append String.length]. rewrite !length_append.
    pose proof (newline_indent_length (S level)). pose proof (Hx Hlx (S level)).
    assert (Hitems : (json.cost_items xs
                      <= String.length (json.encode_items float_repr indent level xs))%nat).
    { clear - Hxs Hl. induction Hxs as [|y ys Hy Hys IHys]; [simpl; lia|].
      simpl in Hl. apply andb_prop in Hl as (Hly & Hl).
      cbn [json.encode_items append String.length json.cost_items fold_right].
      rewrite !length_append.
      pose proof (newline_indent_length (S level)). pose proof (Hy Hly (S level)).
      specialize (IHys Hl). unfold json.cost_items in IHys. lia. }
    unfold json.cost_items in Hitems. simpl. lia.
  - destruct d as [|[k x] xs]; [simpl; lia|].
    inversion IH as [|? ? Hx Hxs]; subst.
    simpl in Hl. apply andb_prop in Hl as (Hlx & Hl).
    rewrite encode_dict. cbn [append String.length]. rewrite !length_append.
    cbn [String.length]. rewrite !length_append.
    pose proof (newline_indent_length (S level)). pose proof (Hx Hlx (S level)).
    assert (Hmembers : (json.cost_members xs
                        <= String.length (json.encode_members float_repr indent level xs))%nat).
    { clear - Hxs Hl. induction Hxs as [|[k' y] ys Hy Hys IHys]; [simpl; lia|].
      simpl in Hl. apply andb_prop in Hl as (Hly & Hl).
      cbn [json.encode_members append String.length json.cost_members fold_right snd].
      rewrite !length_append. cbn [String.length]. rewrite !length_append.
      pose proof (newline_indent_length (S level)). pose proof (Hy Hly (S level)) as Hc.
      cbn [snd] in Hc. specialize (IHys Hl). unfold json.cost_members in IHys. lia. }
    unfold json.cost_members in Hmembers. simpl. simpl in H0. lia.
Qed.

(** What [print(json.dumps(v, indent=indent))] writes is read back by
    [json.loads] as the value itself, each finite number through its text. *)
Theorem loads_print_dumps (v : pyval) :
  json.well_formed v = true ->
  json.literals float_repr v = true ->
  json.loads float_of_str (print (json.dumps float_repr indent v) "") = Some (reread v).
Proof.
  intros Hw Hl. unfold print, json.dumps, json.loads. cbn [append].
  rewrite (skip_ws_encode 0%nat v nl Hl).
  rewrite (scan_once_encode v Hw Hl 0%nat _ nl).
  - reflexivity.
  - rewrite length_append. pose proof (cost_le_length v Hl 0%nat). lia.
  - right. reflexivity.
Qed.

Lemma keys_reread (v : pyval) : keys (reread v) = keys v.
Proof.
  destruct v as [x | l | d]; try reflexivity. simpl. rewrite map_map. reflexivity.
Qed.

Lemma get_reread (k : string) (v : pyval) :
  get k (reread v) = option_map reread (get k v).
Proof.
  destruct v as [x | l | d]; try reflexivity. simpl.
  induction d as [|[k' x] d IH]; [reflexivity|]. simpl.
  destruct (String.eqb k k'); [reflexivity | exact IH].
Qed.

End RoundTrip.

End ReadingBack.

(** ** The printed record *)

Lemma tolist_well_formed (a : list float) : json.well_formed (tolist a) = true.
Proof. unfold tolist. simpl. induction a as [|x a IH]; [reflexivity | exact IH]. Qed.

Lemma tolist32_well_formed (a : list float) : json.well_formed (tolist32 a) = true.
Proof. unfold tolist32. simpl. induction a as [|x a IH]; [reflexivity | exact IH]. Qed.

(** The record of a successful extraction is a proper dictionary of
    dictionaries: no key occurs twice. *)
Lemma extract_well_formed (L : Librosa) (audio_path : string) (d : pyval) :
  extract_prosodic_features L audio_path = (Some d, "") -> json.well_formed d = true.
Proof.
  intros H. destruct (extract_some _ _ _ _ H) as (Hf & _).
  destruct (features_ok_returns _ _ _ Hf) as (r & Hr). sections Hr H.
  cbn [json.well_formed map fst snd forallb json.distinct existsb negb andb orb
       String.eqb Ascii.eqb Bool.eqb pitch_section energy_section timing_section
       voice_quality_section formants].
  rewrite tolist32_well_formed.
  destruct (Nat.ltb 0 (List.length (voiced_values r)));
    [rewrite tolist_well_formed|]; reflexivity.
Qed.

Lemma append_empty (s : string) : s ++ "" = s.
Proof. induction s as [|c s IH]; [reflexivity | simpl; rewrite IH; reflexivity]. Qed.

(** A successful extraction is printed to standard output, and the run ends
    with status 0; the error stream holds what the libraries have warned
    of. *)
Lemma main_of_success
    (L : Librosa) (float_repr : float -> string) (prog audio_path : string) (d : pyval) :
  extract_prosodic_features L audio_path = (Some d, "") ->
  main L float_repr [prog; audio_path] =
    {| stdout := print (json.dumps float_repr 2 d) "";
       stderr := warnings L audio_path;
       status := 0 |}.
Proof.
  intros H. destruct (extract_some _ _ _ _ H) as (Hf & _).
  destruct (features_ok_returns _ _ _ Hf) as (r & Hr).
  unfold main. cbn [List.length Nat.eqb negb nth]. rewrite H, append_empty.
  sections Hr H. reflexivity.
Qed.

(** C7, as the script behaves: what a successful run prints parses back into
    a structure whose top-level keys are pitch, energy, timing and
    voice_quality; the pitch, energy and voice_quality sections hold exactly
    the sub-keys the specification describes, and the timing section holds
    speaking_rate and rhythm_score and, between them, pause_patterns. *)
Theorem printed_record_keys
    (L : Librosa) (float_repr : float -> string) (float_of_str : string -> float)
    (prog audio_path : string) (d : pyval) :
  extract_prosodic_features L audio_path = (Some d, "") ->
  json.literals float_repr d = true ->
  exists v,
    json.loads float_of_str (stdout (main L float_repr [prog; audio_path])) = Some v /\
    keys v = ["pitch"; "energy"; "timing"; "voice_quality"] /\
    subkeys "pitch" v = Some ["mean_f0"; "f0_variance"; "f0_range"; "pitch_contour"] /\
    subkeys "energy" v =
      Some ["mean_energy"; "energy_variance"; "dynamic_range"; "energy_contour"] /\
    subkeys "timing" v = Some ["speaking_rate"; "pause_patterns"; "rhythm_score"] /\
    subkeys "voice_quality" v = Some ["jitter"; "shimmer"; "hnr"; "formants"].
Proof.
  intros H Hl. exists (json.reread float_of_str float_repr d).
  rewrite (main_of_success L float_repr prog audio_path d H). cbn [stdout].
  split; [apply loads_print_dumps; [apply (extract_well_formed L audio_path d H) | exact Hl]|].
  unfold subkeys. rewrite keys_reread, !get_reread.
  destruct (extract_some _ _ _ _ H) as (Hf & _).
  destruct (features_ok_returns _ _ _ Hf) as (r & Hr). sections Hr H.
  cbn [get assoc String.eqb Ascii.eqb Bool.eqb option_map keys map fst
       timing_section voice_quality_section].
  rewrite !keys_reread. repeat split; reflexivity.
Qed.

Lemma printed_record_keys_witness :
  exists v,
    json.loads Examples.float_of_str
      (stdout (main Examples.silence Examples.float_repr
                 ["voice_emotion_analysis.py"; "silence.wav"])) = Some v /\
    keys v = ["pitch"; "energy"; "timing"; "voice_quality"] /\
    subkeys "pitch" v = Some ["mean_f0"; "f0_variance"; "f0_range"; "pitch_contour"] /\
    subkeys "energy" v =
      Some ["mean_energy"; "energy_variance"; "dynamic_range"; "energy_contour"] /\
    subkeys "timing" v = Some ["speaking_rate"; "pause_patterns"; "rhythm_score"] /\
    subkeys "voice_quality" v = Some ["jitter"; "shimmer"; "hnr"; "formants"].
Proof.
  eapply (printed_record_keys Examples.silence Examples.float_repr Examples.float_of_str
            "voice_emotion_analysis.py" "silence.wav").
  - vm_compute. reflexivity.
  - vm_compute. reflexivity.
Defined.

(** C7 as stated fails: the timing section of what the run on the silent
    recording prints holds the sub-key pause_patterns, which is not among the
    sub-keys the specification describes for that section. *)
Lemma timing_holds_undocumented_subkey :
  exists v timing,
    json.loads Examples.float_of_str
      (stdout (main Examples.silence Examples.float_repr
                 ["voice_emotion_analysis.py"; "silence.wav"])) = Some v /\
    subkeys "timing" v = Some timing /\
    existsb (String.eqb "pause_patterns") timing = true /\
    existsb (String.eqb "pause_patterns") (documented_subkeys "timing") = false.
Proof.
  eexists _, _.
  split; [vm_compute; reflexivity|]. split; [vm_compute; reflexivity|].
  split; vm_compute; reflexivity.
Qed.

(** X2: a run on one audio file whose extraction succeeds prints the record
    as JSON with indent 2 and a newline to standard output and exits with
    status 0; the script itself writes nothing to the error stream, which
    holds the warnings of the libraries and nothing else. *)
Theorem success_prints_record
    (L : Librosa) (float_repr : float -> string) (prog audio_path : string) (d : pyval) :
  extract_prosodic_features L audio_path = (Some d, "") ->
  main L float_repr [prog; audio_path] =
    {| stdout := json.dumps float_repr 2 d ++ String "010"%char "";
       stderr := warnings L audio_path;
       status := 0 |}.
Proof.
  intros H. rewrite (main_of_success L float_repr prog audio_path d H). reflexivity.
Qed.

Lemma success_prints_record_witness :
  exists d,
    extract_prosodic_features Examples.silence "silence.wav" = (Some d, "") /\
    main Examples.silence Examples.float_repr ["voice_emotion_analysis.py"; "silence.wav"] =
      {| stdout := json.dumps Examples.float_repr 2 d ++ String "010"%char "";
         stderr :=
           "voice_emotion_analysis.py:61: RuntimeWarning: "
           ++ "invalid value encountered in scalar divide" ++ String "010"%char ""
           ++ "  " ++ String "034"%char "shimmer" ++ String "034"%char ": "
           ++ "float(np.std(np.diff(rms)) / np.mean(rms))," ++ String "010"%char "";
         status := 0 |}.
Proof.
  eexists. split; [vm_compute; reflexivity|].
  apply (success_prints_record Examples.silence Examples.float_repr).
  vm_compute. reflexivity.
Defined.

(** * Further properties *)

(** ** Stand-ins: what the library returned *)

Lemma click_returns : returns Variants.click "click.wav" Variants.click_run.
Proof. unfold returns, answers. repeat split; vm_compute; reflexivity. Qed.

Lemma voiced_resampled_returns :
  returns Variants.voiced_resampled "speech.wav" Variants.voiced_resampled_run.
Proof. unfold returns, answers. repeat split; vm_compute; reflexivity. Qed.

(** ** When the extraction succeeds *)

Lemma ptp_ok_nonempty (t : Fl.format) (a : list float) (v : float) :
  np.ptp t a = Ok v -> a <> [].
Proof. destruct a; [discriminate | discriminate]. Qed.

Lemma features_shape (L : Librosa) (audio_path : string) (r : run) (d : pyval) :
  answers L audio_path r -> features L audio_path = Ok d ->
  well_shaped r /\ exists x, np.to_float (numpy L) (beat_tempo r) = Ok x.
Proof.
  intros (Hload & Hpyin & Hrms & Hcen & Hroll & Hbeat & Hstft & Hfreq) H.
  unfold features in H. rewrite Hload in H. simpl in H.
  rewrite Hpyin in H. simpl in H.
  apply bind_ok in H as (c & Hc & H). apply mask_index_ok in Hc as (Hlen & ->).
  rewrite Hrms in H. simpl in H.
  apply bind_ok in H as (row & Hrow & H). apply row0_ok in Hrow as (Hrows & ->).
  rewrite Hcen in H. simpl in H. apply bind_ok in H as (? & Hc0 & H).
  apply row0_ok in Hc0 as (Hcen0 & _).
  rewrite Hroll in H. simpl in H. apply bind_ok in H as (? & Hr0 & H).
  apply row0_ok in Hr0 as (Hroll0 & _).
  rewrite Hbeat in H. simpl in H. rewrite Hstft in H. simpl in H.
  rewrite Hfreq in H. simpl in H.
  apply bind_ok in H as (p & Hp & H). apply bind_ok in H as (e & He & H).
  apply bind_ok in H as (rate & Hrate & _).
  rewrite to_float_times in Hrate. apply bind_ok in Hrate as (number & Hnumber & _).
  unfold energy_section in He. apply bind_ok in He as (range & Hrange & _).
  apply ptp_ok_nonempty in Hrange.
  split; [|exists number; exact Hnumber].
  unfold well_shaped. repeat split; try assumption.
  destruct (rms2 r) as [|row rest]; [congruence|]. exists row, rest.
  split; [reflexivity|]. intros ->. apply Hrange. reflexivity.
Qed.

(** When the library has answered with arrays of the promised shapes and
    [float] rejects the tempo, the exception of [float] is the one the body
    raises: nothing before it has failed. *)
Lemma features_tempo_rejected (L : Librosa) (audio_path : string) (r : run) (e : exn) :
  answers L audio_path r -> well_shaped r ->
  np.to_float (numpy L) (beat_tempo r) = Raise e ->
  features L audio_path = Raise e.
Proof.
  intros (Hload & Hpyin & Hrms & Hcen & Hroll & Hbeat & Hstft & Hfreq)
         (Hlen & (row & rest & Hrow & Hne) & Hc & Hr) Htempo.
  unfold features. rewrite Hload. simpl. rewrite Hpyin. simpl.
  unfold np.mask_index. rewrite Hlen, Nat.eqb_refl. simpl.
  rewrite Hrms, Hrow. simpl. rewrite Hcen. simpl.
  destruct (centroid2 r) as [|c0 cs]; [congruence|]. simpl.
  rewrite Hroll. simpl. destruct (rolloff2 r) as [|r0 rs]; [congruence|]. simpl.
  rewrite Hbeat. simpl. rewrite Hstft. simpl. rewrite Hfreq. simpl.
  destruct (pitch_section_ok (np.select (f0 r) (voiced_flag r))) as (p & ->). simpl.
  unfold energy_section.
  destruct (ptp_ok b32 (np.square b32 row)) as (v & ->).
  { unfold np.square. destruct row; [congruence | discriminate]. }
  simpl. rewrite to_float_times, Htempo. reflexivity.
Qed.

Lemma voiced_strict_answers :
  answers Variants.voiced_strict "speech.wav" Examples.voiced_run.
Proof. unfold answers. repeat split; vm_compute; reflexivity. Qed.

Lemma voiced_well_shaped : well_shaped Examples.voiced_run.
Proof.
  unfold well_shaped. repeat split; try (vm_compute; discriminate).
  eexists _, _. split; [vm_compute; reflexivity | discriminate].
Qed.

Lemma click_well_shaped : well_shaped Variants.click_run.
Proof.
  unfold well_shaped. repeat split; try (vm_compute; discriminate).
  eexists _, _. split; [vm_compute; reflexivity | discriminate].
Qed.

(** X3: once the library has answered every call, the extraction returns a
    record exactly when the answers have the shapes the script relies on (a
    pitch track as long as its voicing flags, an RMS matrix whose first row
    has at least one frame, spectral matrices with at least one row) and the
    tempo is one [float] accepts; the range of an empty pitch track is never
    asked for.  When the shapes are right and [float] rejects the tempo, as
    NumPy 2.4 does for the array of one element librosa 0.11 returns, the
    extraction returns [None] and prints the message of [float]'s TypeError
    after the words Error processing audio. *)
Theorem extraction_succeeds_iff_shapes_and_tempo
    (L : Librosa) (audio_path : string) (r : run) :
  answers L audio_path r ->
  ((exists d, extract_prosodic_features L audio_path = (Some d, "")) <->
   (well_shaped r /\ exists x, np.to_float (numpy L) (beat_tempo r) = Ok x)) /\
  (forall e, well_shaped r -> np.to_float (numpy L) (beat_tempo r) = Raise e ->
     extract_prosodic_features L audio_path =
       (None, "Error processing audio: " ++ exn_str e ++ String "010"%char "")).
Proof.
  intros Ha. split; [split|].
  - intros (d & H). apply extract_some in H as (H & _).
    exact (features_shape L audio_path r d Ha H).
  - intros (Hs & x & Hx).
    destruct (features_total L audio_path
                (Build_run (y r) (sr r) (f0 r) (voiced_flag r) (voiced_probs r) (rms2 r)
                   (centroid2 r) (rolloff2 r) (beat_tempo r) x (beats r) (spectrum r)
                   (freqs r)))
      as (d & Hd); [split; [exact Ha | exact Hx] | exact Hs |].
    exists d. apply extract_of_features, Hd.
  - intros e Hs He. unfold extract_prosodic_features.
    rewrite (features_tempo_rejected L audio_path r e Ha Hs He). reflexivity.
Qed.

Lemma extraction_succeeds_iff_shapes_and_tempo_witness :
  (exists d, extract_prosodic_features Variants.click "click.wav" = (Some d, "")) /\
  well_shaped Variants.click_run /\
  np.to_float np.V2_4 (beat_tempo Variants.click_run) = Ok (S754_zero false) /\
  well_shaped Examples.voiced_run /\
  beat_tempo Examples.voiced_run = np.Array [Fl.lit 120] /\
  extract_prosodic_features Variants.voiced_strict "speech.wav" =
    (None,
     "Error processing audio: only 0-dimensional arrays can be converted to Python scalars"
     ++ String "010"%char "").
Proof.
  pose proof (extraction_succeeds_iff_shapes_and_tempo
                Variants.click "click.wav" Variants.click_run
                (proj1 click_returns)) as (Hclick & _).
  pose proof (extraction_succeeds_iff_shapes_and_tempo
                Variants.voiced_strict "speech.wav" Examples.voiced_run
                voiced_strict_answers) as (_ & Hstrict).
  split; [apply Hclick; split; [exact click_well_shaped | eexists; vm_compute; reflexivity]|].
  split; [exact click_well_shaped|].
  split; [vm_compute; reflexivity|].
  split; [exact voiced_well_shaped|].
  split; [reflexivity|].
  apply (Hstrict (Exn "TypeError"
                    "only 0-dimensional arrays can be converted to Python scalars")
           voiced_well_shaped).
  vm_compute. reflexivity.
Defined.

(** ** What the record depends on *)

(** X4: the record is a function of the pitch track, the voicing flags, the
    RMS amplitudes, the tempo and the beats alone: two successful extractions
    that agree on these give the same record, whatever the samples, the sample
    rate, the voicing probabilities, the spectral centroid and roll-off, the
    spectrum and the frequencies are. *)
Theorem record_ignores_unused_features
    (L L' : Librosa) (audio_path audio_path' : string) (r r' : run) (d d' : pyval) :
  returns L audio_path r -> returns L' audio_path' r' ->
  extract_prosodic_features L audio_path = (Some d, "") ->
  extract_prosodic_features L' audio_path' = (Some d', "") ->
  f0 r = f0 r' -> voiced_flag r = voiced_flag r' -> rms r = rms r' ->
  tempo r = tempo r' -> beats r = beats r' ->
  d = d'.
Proof.
  intros Hr Hr' H H' Hf0 Hflag Hrms Htempo Hbeats.
  destruct (extract_inv _ _ _ _ Hr H) as (p & e & Hp & He & ->).
  destruct (extract_inv _ _ _ _ Hr' H') as (p' & e' & Hp' & He' & ->).
  assert (Hv : voiced_values r = voiced_values r')
    by (unfold voiced_values; rewrite Hf0, Hflag; reflexivity).
  assert (Hen : energy r = energy r') by (unfold energy; rewrite Hrms; reflexivity).
  rewrite Hv in Hp. rewrite Hen in He.
  rewrite Hp in Hp'. rewrite He in He'. inversion Hp'. inversion He'.
  rewrite Hv, Hrms, Htempo, Hbeats. reflexivity.
Qed.

Lemma record_ignores_unused_features_witness :
  exists d d',
    extract_prosodic_features Examples.voiced "speech.wav" = (Some d, "") /\
    extract_prosodic_features Variants.voiced_resampled "speech.wav" = (Some d', "") /\
    sr Examples.voiced_run = 16000 /\ sr Variants.voiced_resampled_run = 22050 /\
    d = d'.
Proof.
  eexists _, _.
  split; [vm_compute; reflexivity|]. split; [vm_compute; reflexivity|].
  split; [reflexivity|]. split; [reflexivity|].
  apply (record_ignores_unused_features
           Examples.voiced Variants.voiced_resampled "speech.wav" "speech.wav"
           Examples.voiced_run Variants.voiced_resampled_run _ _
           voiced_returns voiced_resampled_returns);
    vm_compute; reflexivity.
Defined.

(** ** Pitch *)

(** X5: the pitch contour is empty exactly when no frame is voiced, and then
    the three pitch statistics are the fallback constants and jitter is its
    default: an empty contour tells a reader of the record that the pitch
    numbers are placeholders. *)
Theorem empty_contour_marks_fallback
    (L : Librosa) (audio_path : string) (r : run) (d : pyval) :
  returns L audio_path r ->
  extract_prosodic_features L audio_path = (Some d, "") ->
  (field "pitch" "pitch_contour" d = Some (PyList []) <-> voiced_values r = []) /\
  (field "pitch" "pitch_contour" d = Some (PyList []) ->
     field "pitch" "mean_f0" d = Some (PyFloat (Fl.lit 150)) /\
     field "pitch" "f0_variance" d = Some (PyFloat (Fl.lit 100)) /\
     field "pitch" "f0_range" d = Some (PyFloat (Fl.lit 50)) /\
     field "voice_quality" "jitter" d = Some (PyFloat Fl.lit_0_01)).
Proof.
  intros Hr H. sections Hr H.
  split.
  - destruct (voiced_values r) as [|x v]; split; intros Hc;
      try reflexivity; discriminate Hc.
  - intros Hc. destruct (voiced_values r) as [|x v]; [|discriminate Hc].
    simpl in Hf0_range. inversion Hf0_range. repeat split; reflexivity.
Qed.

Lemma empty_contour_marks_fallback_witness :
  exists d,
    extract_prosodic_features Variants.click "click.wav" = (Some d, "") /\
    field "pitch" "pitch_contour" d = Some (PyList []) /\
    voiced_values Variants.click_run = [] /\
    field "pitch" "mean_f0" d = Some (PyFloat (Fl.lit 150)) /\
    field "pitch" "f0_variance" d = Some (PyFloat (Fl.lit 100)) /\
    field "pitch" "f0_range" d = Some (PyFloat (Fl.lit 50)) /\
    field "voice_quality" "jitter" d = Some (PyFloat Fl.lit_0_01).
Proof.
  eexists. split; [vm_compute; reflexivity|].
  refine ((fun H Hc => conj Hc (conj (proj1 (proj1 H) Hc) (proj2 H Hc)))
            (empty_contour_marks_fallback Variants.click "click.wav" Variants.click_run _
               click_returns _) _).
  - vm_compute. reflexivity.
  - vm_compute. reflexivity.
Defined.

(** ** Amplitude *)

Lemma div_nan (t : Fl.format) (x : float) : Fl.div t S754_nan x = S754_nan.
Proof. destruct x; reflexivity. Qed.

(** X6: on a recording of a single analysis frame there is no pair of
    successive amplitudes, and shimmer is NaN, whatever the amplitude. *)
Theorem single_frame_shimmer_undefined
    (L : Librosa) (audio_path : string) (r : run) (d : pyval) :
  returns L audio_path r ->
  extract_prosodic_features L audio_path = (Some d, "") ->
  (List.length (rms r) < 2)%nat ->
  field "voice_quality" "shimmer" d = Some (PyFloat S754_nan).
Proof.
  intros Hr H Hlen. sections Hr H.
  cbn [field get assoc voice_quality_section String.eqb Ascii.eqb Bool.eqb].
  destruct (rms r) as [|a [|b tl]]; [| |simpl in Hlen; lia];
    change (np.std b32 (np.diff b32 _)) with S754_nan; rewrite div_nan; reflexivity.
Qed.

Lemma single_frame_shimmer_undefined_witness :
  exists d,
    extract_prosodic_features Variants.click "click.wav" = (Some d, "") /\
    rms Variants.click_run = [Examples.scaled b32 1 (-1)] /\
    field "voice_quality" "shimmer" d = Some (PyFloat S754_nan).
Proof.
  eexists. split; [vm_compute; reflexivity|]. split; [reflexivity|].
  apply (single_frame_shimmer_undefined Variants.click "click.wav" Variants.click_run _
           click_returns).
  - vm_compute. reflexivity.
  - vm_compute. lia.
Defined.

(** *** Signs *)

Lemma round_aux_not_negative (p em mx ex : Z) (lx : location) :
  not_negative (binary_round_aux p em false mx ex lx) = true.
Proof.
  unfold binary_round_aux.
  destruct (shr_fexp p em mx ex lx) as [mrs' e'].
  destruct (shr_fexp p em _ e' loc_Exact) as [mrs'' e''].
  destruct (shr_m mrs''); [reflexivity | | reflexivity].
  destruct (Z.leb e'' (em - p)); reflexivity.
Qed.

Lemma round_not_negative (p em : Z) (m : positive) (e : Z) :
  not_negative (binary_round p em false m e) = true.
Proof.
  unfold binary_round. destruct (shl_align m e _) as [mz ez].
  apply round_aux_not_negative.
Qed.

Lemma square_not_negative (t : Fl.format) (x : float) :
  not_negative (Fl.mul t x x) = true.
Proof.
  destruct x as [s | s | | s m e]; unfold Fl.mul; simpl;
    rewrite ?xorb_nilpotent; try reflexivity.
  apply round_aux_not_negative.
Qed.

Lemma cast_not_negative (t : Fl.format) (x : float) :
  not_negative x = true -> not_negative (Fl.cast t x) = true.
Proof.
  destruct x as [s | s | | s m e]; simpl; intros H; try exact H.
  destruct s; [discriminate|]. apply round_not_negative.
Qed.

Lemma add_not_negative (t : Fl.format) (x y : float) :
  not_negative x = true -> not_negative y = true ->
  not_negative (Fl.add t x y) = true.
Proof.
  unfold Fl.add.
  destruct x as [[|] | [|] | | [|] mx ex]; destruct y as [[|] | [|] | | [|] my ey];
    simpl; intros Hx Hy; try discriminate; try reflexivity.
  apply round_not_negative.
Qed.

Lemma of_nat_not_negative (t : Fl.format) (n : nat) :
  not_negative (Fl.of_Z t (Z.of_nat n)) = true.
Proof.
  unfold Fl.of_Z, binary_normalize. destruct (Z.of_nat n) eqn:E.
  - reflexivity.
  - apply round_not_negative.
  - lia.
Qed.

Lemma div_not_negative (t : Fl.format) (x y : float) :
  not_negative x = true -> not_negative y = true ->
  not_negative (Fl.div t x y) = true.
Proof.
  unfold Fl.div.
  destruct x as [[|] | [|] | | [|] mx ex]; destruct y as [[|] | [|] | | [|] my ey];
    simpl; intros Hx Hy; try discriminate; try reflexivity.
  destruct (SFdiv_core_binary _ _ _ _ _ _) as [[mz ez] lz].
  apply round_aux_not_negative.
Qed.

Lemma add_negative_zero (t : Fl.format) (x : float) :
  not_negative x = true -> Fl.add t (S754_zero true) x = x.
Proof. destruct x as [[|] | s | | s m e]; intros H; try discriminate; reflexivity. Qed.

Lemma add_weakly_not_negative (t : Fl.format) (x y : float) :
  not_negative x = true \/ x = S754_zero true ->
  not_negative y = true \/ y = S754_zero true ->
  (not_negative (Fl.add t x y) = true \/ Fl.add t x y = S754_zero true) /\
  (not_negative x = true \/ not_negative y = true -> not_negative (Fl.add t x y) = true).
Proof.
  intros [Hx | ->] [Hy | ->].
  - pose proof (add_not_negative t x y Hx Hy). auto.
  - assert (H : not_negative (Fl.add t x (S754_zero true)) = true)
      by (destruct x as [[|] | [|] | | [|] m e]; try discriminate; reflexivity).
    auto.
  - rewrite (add_negative_zero t y Hy). auto.
  - split; [right; reflexivity | intros [H | H]; discriminate].
Qed.

Lemma fold_add_not_negative (t : Fl.format) (a : list float) (init : float) :
  forallb not_negative a = true ->
  not_negative init = true \/ init = S754_zero true ->
  (not_negative (fold_left (Fl.add t) a init) = true
   \/ fold_left (Fl.add t) a init = S754_zero true) /\
  (not_negative init = true \/ a <> [] ->
   not_negative (fold_left (Fl.add t) a init) = true).
Proof.
  revert init. induction a as [|x a IH]; intros init Ha Hinit.
  - simpl. split; [exact Hinit|]. intros [H | H]; [exact H | congruence].
  - simpl in Ha |- *. apply andb_prop in Ha as (Hx & Ha).
    destruct (add_weakly_not_negative t init x Hinit (or_introl Hx)) as (Hw & Hn).
    destruct (IH (Fl.add t init x) Ha (or_introl (Hn (or_intror Hx)))) as (IHw & IHn).
    split; [exact IHw | intros _; apply IHn; left; apply Hn; right; exact Hx].
Qed.

Lemma accumulate_not_negative (t : Fl.format) (n : nat) :
  forall (a : list float) (r : np.lanes),
    (List.length a <= n)%nat ->
    forallb not_negative a = true -> lanes_not_negative r ->
    lanes_not_negative (fst (np.accumulate t r a)) /\
    forallb not_negative (snd (np.accumulate t r a)) = true.
Proof.
  induction n as [|n IH]; intros a r Hn Ha Hr.
  - destruct a; [simpl; auto | simpl in Hn; lia].
  - destruct a as [|a0 [|a1 [|a2 [|a3 [|a4 [|a5 [|a6 [|a7 rest]]]]]]]];
      try (simpl; auto; fail).
    cbn [np.accumulate].
    cbn [forallb] in Ha.
    repeat match goal with H : _ && _ = true |- _ => apply andb_prop in H as (? & H) end.
    destruct Hr as (? & ? & ? & ? & ? & ? & ? & ?).
    apply IH; [simpl in Hn; lia | assumption |].
    unfold lanes_not_negative; cbn [np.r0 np.r1 np.r2 np.r3 np.r4 np.r5 np.r6 np.r7].
    repeat split; apply add_not_negative; assumption.
Qed.

Lemma sequential_not_negative (t : Fl.format) (a : list float) :
  forallb not_negative a = true ->
  (not_negative (np.sequential t a) = true \/ np.sequential t a = S754_zero true) /\
  (a <> [] -> not_negative (np.sequential t a) = true).
Proof.
  intros Ha. unfold np.sequential.
  destruct (fold_add_not_negative t a (S754_zero true) Ha (or_intror eq_refl)) as (Hw & Hn).
  split; [exact Hw | intros H; apply Hn; right; exact H].
Qed.

Lemma block_not_negative (t : Fl.format) (a : list float) :
  forallb not_negative a = true ->
  (not_negative (np.block t a) = true \/ np.block t a = S754_zero true) /\
  (a <> [] -> not_negative (np.block t a) = true).
Proof.
  intros Ha.
  destruct a as [|a0 [|a1 [|a2 [|a3 [|a4 [|a5 [|a6 [|a7 rest]]]]]]]];
    try (apply (sequential_not_negative t _ Ha)).
  assert (H : not_negative (np.block t (a0 :: a1 :: a2 :: a3 :: a4 :: a5 :: a6 :: a7 :: rest)) = true).
  { cbn [np.block]. cbn [forallb] in Ha.
    repeat match goal with H : _ && _ = true |- _ => apply andb_prop in H as (? & H) end.
    destruct (accumulate_not_negative t (List.length rest) rest
                (np.Lanes a0 a1 a2 a3 a4 a5 a6 a7) (le_n _) Ha) as (Hr & Hl).
    { unfold lanes_not_negative; cbn; auto 10. }
    destruct (np.accumulate t (np.Lanes a0 a1 a2 a3 a4 a5 a6 a7) rest) as (r, left).
    cbn [fst snd] in Hr, Hl. destruct Hr as (? & ? & ? & ? & ? & ? & ? & ?).
    apply (fold_add_not_negative t left _ Hl); [left | left];
      repeat apply add_not_negative; assumption. }
  split; [left; exact H | intros _; exact H].
Qed.

Lemma forallb_firstn {A : Type} (f : A -> bool) (n : nat) (a : list A) :
  forallb f a = true -> forallb f (firstn n a) = true.
Proof.
  revert a. induction n as [|n IH]; intros [|x a]; try reflexivity. simpl.
  intros H. apply andb_prop in H as (Hx & Ha). rewrite Hx. apply IH, Ha.
Qed.

Lemma forallb_skipn (A : Type) (p : A -> bool) (n : nat) (a : list A) :
  forallb p a = true -> forallb p (skipn n a) = true.
Proof.
  revert a. induction n as [|n IH]; intros [|x a] H; try exact H.
  simpl in H |- *. apply andb_prop in H as (_ & H). apply IH, H.
Qed.

Lemma pairwise_not_negative (t : Fl.format) (fuel : nat) :
  forall a : list float,
    forallb not_negative a = true ->
    (not_negative (np.pairwise t fuel a) = true \/ np.pairwise t fuel a = S754_zero true) /\
    (a <> [] -> not_negative (np.pairwise t fuel a) = true).
Proof.
  induction fuel as [|fuel IH]; intros a Ha.
  - cbn [np.pairwise].
    destruct (Nat.ltb _ _); [apply sequential_not_negative, Ha|].
    destruct (Nat.leb _ _); apply block_not_negative, Ha.
  - cbn [np.pairwise].
    destruct (Nat.ltb _ _); [apply sequential_not_negative, Ha|].
    destruct (Nat.leb (List.length a) 128) eqn:Hlen; [apply block_not_negative, Ha|].
    apply Nat.leb_gt in Hlen.
    set (n2 := (List.length a / 2 - (List.length a / 2) mod 8)%nat).
    destruct (IH _ (forallb_firstn _ n2 a Ha)) as (Hw1 & _).
    destruct (IH _ (forallb_skipn _ _ n2 a Ha)) as (Hw2 & Hn2).
    destruct (add_weakly_not_negative t _ _ Hw1 Hw2) as (Hw & Hn).
    split; [exact Hw|]. intros _. apply Hn. right. apply Hn2.
    intros Hnil. apply (f_equal (@List.length float)) in Hnil.
    rewrite length_skipn in Hnil. simpl in Hnil.
    assert (n2 <= List.length a / 2)%nat by (unfold n2; lia).
    pose proof (Nat.div_lt (List.length a) 2). lia.
Qed.

Lemma sum_not_negative (t : Fl.format) (a : list float) :
  forallb not_negative a = true -> not_negative (np.sum t a) = true.
Proof.
  intros Ha. destruct a as [|x a]; [reflexivity|].
  unfold np.sum.
  destruct (pairwise_not_negative t (List.length (x :: a)) (x :: a) Ha) as (_ & Hn).
  rewrite add_negative_zero; apply Hn; discriminate.
Qed.

Lemma mean_not_negative (t : Fl.format) (a : list float) :
  forallb not_negative a = true -> not_negative (np.mean t a) = true.
Proof.
  intros H. unfold np.mean, np.count.
  apply div_not_negative; [apply sum_not_negative, H | apply of_nat_not_negative].
Qed.

Lemma squares_not_negative (t : Fl.format) (a : list float) :
  forallb not_negative (map (fun v => Fl.mul t v v) a) = true.
Proof.
  induction a as [|x a IH]; [reflexivity|]. simpl.
  rewrite square_not_negative. exact IH.
Qed.

Lemma var_not_negative (t : Fl.format) (a : list float) :
  not_negative (np.var t a) = true.
Proof.
  unfold np.var, np.count.
  apply div_not_negative; [|apply of_nat_not_negative].
  apply sum_not_negative, squares_not_negative.
Qed.

Lemma tolist32_none_negative (a : list float) :
  forallb not_negative a = true -> none_negative (tolist32 a) = true.
Proof.
  unfold tolist32. cbn [none_negative].
  induction a as [|x a IH]; [reflexivity|]. cbn [forallb map none_negative].
  intros H. apply andb_prop in H as (Hx & Ha).
  rewrite (cast_not_negative Fl.binary64 x Hx). apply IH, Ha.
Qed.

(** X7: the variance of the pitch, the mean and the variance of the energy
    and every entry of the energy contour are never negative: each is NaN or
    has a clear sign bit, whatever the library returned. *)
Theorem energy_and_variances_not_negative
    (L : Librosa) (audio_path : string) (d : pyval) :
  extract_prosodic_features L audio_path = (Some d, "") ->
  exists f0_variance mean_energy energy_variance energy_contour,
    field "pitch" "f0_variance" d = Some (PyFloat f0_variance) /\
    field "energy" "mean_energy" d = Some (PyFloat mean_energy) /\
    field "energy" "energy_variance" d = Some (PyFloat energy_variance) /\
    field "energy" "energy_contour" d = Some energy_contour /\
    not_negative f0_variance = true /\
    not_negative mean_energy = true /\
    not_negative energy_variance = true /\
    none_negative energy_contour = true.
Proof.
  intros H. destruct (extract_some _ _ _ _ H) as (Hf & _).
  destruct (features_ok_returns _ _ _ Hf) as (r & Hr). sections Hr H.
  eexists _, _, _, _.
  split; [reflexivity|]. split; [reflexivity|]. split; [reflexivity|].
  split; [reflexivity|]. split; [|split; [|split]].
  - destruct (Nat.ltb 0 (List.length (voiced_values r)));
      [apply var_not_negative | reflexivity].
  - apply cast_not_negative, mean_not_negative. apply squares_not_negative.
  - apply cast_not_negative, var_not_negative.
  - apply tolist32_none_negative, forallb_firstn, squares_not_negative.
Qed.

Lemma energy_and_variances_not_negative_witness :
  exists d f0_variance mean_energy energy_variance energy_contour,
    extract_prosodic_features Examples.voiced "speech.wav" = (Some d, "") /\
    field "pitch" "f0_variance" d = Some (PyFloat f0_variance) /\
    field "energy" "mean_energy" d = Some (PyFloat mean_energy) /\
    field "energy" "energy_variance" d = Some (PyFloat energy_variance) /\
    field "energy" "energy_contour" d = Some energy_contour /\
    not_negative f0_variance = true /\
    not_negative mean_energy = true /\
    not_negative energy_variance = true /\
    none_negative energy_contour = true.
Proof.
  eexists.
  assert (H : extract_prosodic_features Examples.voiced "speech.wav" = (Some _, ""))
    by (vm_compute; reflexivity).
  destruct (energy_and_variances_not_negative Examples.voiced "speech.wav" _ H)
    as (fv & me & ev & ec & Hrest).
  exists fv, me, ev, ec. split; [exact H | exact Hrest].
Defined.

(** ** Contour lengths *)

Lemma select_length (a : list float) (mask : list bool) :
  List.length a = List.length mask ->
  List.length (np.select a mask) = List.length (filter (fun b => b) mask).
Proof.
  revert mask. induction a as [|x a IH]; intros [|b mask] H; try discriminate;
    [reflexivity|].
  simpl in H. injection H as H. simpl. destruct b; simpl; rewrite (IH mask H); reflexivity.
Qed.

(** X8: the pitch contour has one entry per frame flagged as voiced and
    the energy contour one entry per analysis frame, each up to 100. *)
Theorem contour_lengths
    (L : Librosa) (audio_path : string) (r : run) (d : pyval) :
  returns L audio_path r ->
  extract_prosodic_features L audio_path = (Some d, "") ->
  exists pitch_contour energy_contour,
    field "pitch" "pitch_contour" d = Some pitch_contour /\
    field "energy" "energy_contour" d = Some energy_contour /\
    py_len pitch_contour
      = Nat.min 100 (List.length (filter (fun voiced => voiced) (voiced_flag r))) /\
    py_len energy_contour = Nat.min 100 (List.length (rms r)).
Proof.
  intros Hr H.
  destruct (extract_some _ _ _ _ H) as (Hf & _).
  destruct (features_shape L audio_path r d (proj1 Hr) Hf) as ((Hlen & _) & _).
  sections Hr H. eexists _, _. split; [reflexivity|]. split; [reflexivity|].
  split.
  - rewrite <- (select_length (f0 r) (voiced_flag r) Hlen), select_voiced_values.
    fold (voiced_values r).
    destruct (voiced_values r) as [|x v]; [reflexivity|].
    cbn [List.length Nat.ltb Nat.leb]. unfold tolist, np.slice_to, py_len.
    rewrite length_map, length_firstn. reflexivity.
  - unfold tolist32, np.slice_to, py_len, energy, np.square.
    rewrite !length_map, length_firstn, length_map. reflexivity.
Qed.

Lemma contour_lengths_witness :
  exists d pitch_contour energy_contour,
    extract_prosodic_features Examples.voiced "speech.wav" = (Some d, "") /\
    field "pitch" "pitch_contour" d = Some pitch_contour /\
    field "energy" "energy_contour" d = Some energy_contour /\
    py_len pitch_contour = 3%nat /\
    py_len energy_contour = 4%nat.
Proof.
  eexists.
  assert (H : extract_prosodic_features Examples.voiced "speech.wav" = (Some _, ""))
    by (vm_compute; reflexivity).
  destruct (contour_lengths Examples.voiced "speech.wav" Examples.voiced_run _
              voiced_returns H) as (pc & ec & Hp & He & Hpl & Hel).
  exists pc, ec. repeat split; assumption.
Defined.

(** ** The printed record, read back *)

Lemma same_float_eq (x y : float) : Examples.same_float x y = true -> x = y.
Proof.
  destruct x as [a | a | | a m e]; destruct y as [b | b | | b n f]; simpl;
    intros H; try discriminate; try reflexivity.
  - apply Bool.eqb_prop in H. congruence.
  - apply Bool.eqb_prop in H. congruence.
  - apply andb_prop in H as (H & He). apply andb_prop in H as (Hs & Hm).
    apply Bool.eqb_prop in Hs. apply Pos.eqb_eq in Hm. apply Z.eqb_eq in He.
    congruence.
Qed.

Lemma reread_exact (float_of_str : string -> float) (float_repr : float -> string)
    (v : pyval) :
  exact_numbers float_of_str float_repr v = true ->
  json.reread float_of_str float_repr v = v.
Proof.
  induction v as [x | l IH | d IH] using pyval_induction; simpl; intros H.
  - destruct (Fl.is_finite x); [|reflexivity]. apply same_float_eq in H. congruence.
  - f_equal. induction IH as [|x xs Hx Hxs IHxs]; [reflexivity|]. simpl in H |- *.
    apply andb_prop in H as (H1 & H2). rewrite (Hx H1), (IHxs H2). reflexivity.
  - f_equal. induction IH as [|[k x] xs Hx Hxs IHxs]; [reflexivity|]. simpl in H, Hx |- *.
    apply andb_prop in H as (H1 & H2). rewrite (Hx H1), (IHxs H2). reflexivity.
Qed.

(** X9: what a successful run prints is read back by the JSON decoder as
    the very record the extraction returned, NaN fields included, given a
    runtime that prints each finite number of the record as a JSON number
    literal and reads that literal back as the same float. *)
Theorem printed_record_round_trip
    (L : Librosa) (float_repr : float -> string) (float_of_str : string -> float)
    (prog audio_path : string) (d : pyval) :
  extract_prosodic_features L audio_path = (Some d, "") ->
  json.literals float_repr d = true ->
  exact_numbers float_of_str float_repr d = true ->
  json.loads float_of_str (stdout (main L float_repr [prog; audio_path])) = Some d.
Proof.
  intros H Hl He.
  rewrite (main_of_success L float_repr prog audio_path d H). cbn [stdout].
  rewrite (loads_print_dumps float_of_str float_repr 2 d
             (extract_well_formed L audio_path d H) Hl).
  rewrite (reread_exact float_of_str float_repr d He). reflexivity.
Qed.

Lemma printed_record_round_trip_witness :
  exists d,
    extract_prosodic_features Examples.silence "silence.wav" = (Some d, "") /\
    all_finite d = false /\
    json.loads Examples.float_of_str
      (stdout (main Examples.silence Examples.float_repr
                 ["voice_emotion_analysis.py"; "silence.wav"])) = Some d.
Proof.
  eexists. split; [vm_compute; reflexivity|]. split; [vm_compute; reflexivity|].
  apply (printed_record_round_trip Examples.silence Examples.float_repr
           Examples.float_of_str "voice_emotion_analysis.py" "silence.wav");
    vm_compute; reflexivity.
Defined.

(** ** The script as a whole *)

Lemma append_nonempty (a b : string) : b <> "" -> a ++ b <> "".
Proof. destruct a; [intros H; exact H | discriminate]. Qed.

Lemma print_nonempty (s stream : string) : print s stream <> "".
Proof.
  unfold print. apply append_nonempty, append_nonempty. discriminate.
Qed.

(** X10: whatever the installation, the arguments and the audio file, a run
    ends in one of two ways: with status 0 and the record on standard output,
    the error stream holding what the libraries have written of their own
    accord and nothing of the script; or with status 1, nothing on standard
    output and a message on the error stream.  Without numpy the message is
    the traceback of the import at line 7, which no handler catches. *)
Theorem script_exit_and_streams
    (found : installation) (float_repr : float -> string) (argv : list string) :
  let out := script found float_repr argv in
  (status out = 0 /\ stdout out <> "" /\
   exists imported L,
     found = Installed imported L /\
     stderr out = imported ++ warnings L (nth 1 argv "")) \/
  (status out = 1 /\ stdout out = "" /\ stderr out <> "").
Proof.
  destruct found as [frames | imported | imported L]; cbn zeta; unfold script.
  - right. repeat split. cbn [stderr].
    apply append_nonempty, append_nonempty, append_nonempty, append_nonempty. discriminate.
  - right. repeat split. apply print_nonempty.
  - unfold main. destruct (negb (Nat.eqb (List.length argv) 2)).
    { right. repeat split. apply append_nonempty, print_nonempty. }
    destruct (extract_prosodic_features L (nth 1 argv "")) as [[d|] err] eqn:E.
    + destruct (extract_some _ _ _ _ E) as (Hf & ->).
      destruct (features_ok_returns _ _ _ Hf) as (r & Hr). sections Hr E.
      left. cbn [truthy stdout stderr status]. split; [reflexivity|]. split.
      * apply print_nonempty.
      * exists imported, L. rewrite append_empty. split; reflexivity.
    + right. cbn [truthy stdout stderr status]. repeat split.
      unfold extract_prosodic_features in E.
      destruct (features L (nth 1 argv "")); inversion E.
      apply append_nonempty, append_nonempty, print_nonempty.
Qed.

Lemma script_exit_and_streams_witness :
  (let out := script (Installed "" Examples.silence) Examples.float_repr
                ["voice_emotion_analysis.py"; "silence.wav"] in
   (status out = 0 /\ stdout out <> "" /\
    exists imported L,
      Installed "" Examples.silence = Installed imported L /\
      stderr out = imported ++ warnings L "silence.wav") \/
   (status out = 1 /\ stdout out = "" /\ stderr out <> "")) /\
  status (script (Installed "" Examples.silence) Examples.float_repr
            ["voice_emotion_analysis.py"; "silence.wav"]) = 0 /\
  stderr (script (Installed "" Examples.silence) Examples.float_repr
            ["voice_emotion_analysis.py"; "silence.wav"]) =
    "voice_emotion_analysis.py:61: RuntimeWarning: invalid value encountered in scalar divide"
    ++ String "010"%char ""
    ++ "  " ++ String "034"%char "shimmer" ++ String "034"%char ": "
    ++ "float(np.std(np.diff(rms)) / np.mean(rms))," ++ String "010"%char "" /\
  script (NoLibraries "") Examples.float_repr ["voice_emotion_analysis.py"; "silence.wav"] =
    {| stdout := "";
       stderr := "Error: librosa and scipy are required for advanced voice analysis"
                 ++ String "010"%char "";
       status := 1 |} /\
  script (NoNumpy Variants.import_frame) Examples.float_repr
         ["voice_emotion_analysis.py"; "silence.wav"] =
    {| stdout := "";
       stderr := "Traceback (most recent call last):" ++ String "010"%char ""
                 ++ Variants.import_frame
                 ++ "ModuleNotFoundError: No module named 'numpy'" ++ String "010"%char "";
       status := 1 |}.
Proof.
  split.
  - exact (script_exit_and_streams (Installed "" Examples.silence) Examples.float_repr
             ["voice_emotion_analysis.py"; "silence.wav"]).
  - split; [vm_compute; reflexivity|]. split; [vm_compute; reflexivity|].
    split; [vm_compute; reflexivity|]. vm_compute. reflexivity.
Defined.

(** The import guard comes first: without librosa or scipy every run,
    whatever its arguments, ends with the same message and status 1. *)
Lemma script_without_libraries
    (imported : string) (float_repr : float -> string) (argv : list string) :
  script (NoLibraries imported) float_repr argv =
    {| stdout := ""; stderr := imported ++ import_error ++ nl; status := 1 |}.
Proof. reflexivity. Qed.
